(** * Token-Flight reward distribution: allocation and block collection

    A shallow embedding of the two pieces of [demurrage_distribution.py]
    that decide who is paid how much:

    - [generate_distribution]: the proportional split of a total amount over
      the miners, with its rounding correction, on Python floats;
    - [BlockHeightCollector]: the two queries against the explorer's
      paginated transaction feed.

    Python floats are IEEE 754 binary64 numbers, so weights and amounts are
    Rocq's primitive floats (a Python int below 2^53, such as the total 67
    of [main], converts to the same float before it is used), and
    [round(x, 8)] is CPython's correctly rounded decimal rounding.  Python's
    [print] calls write to the console only and are left out. *)

From Stdlib Require Import ZArith Floats List String Lia.
From Stdlib Require Import Ascii DecimalString DecimalPos DecimalZ.
From stdpp Require Import base option list gmap sorting strings.
Import ListNotations.

Set Warnings "-clear-no-such-hyp".

Local Open Scope Z_scope.

(** ** Exceptions and outcomes *)

(** The exceptions the embedded code can raise.  [HTTPError] stands for
    whatever [requests.get] or [raise_for_status] raises. *)
Inductive exn : Type :=
  | ZeroDivisionError
  | KeyError
  | HTTPError.

(** The result of running a piece of Python: a value, a raised exception, or
    [OutOfFuel] when a bounded unrolling of [while True] was too short. *)
Inductive outcome (A : Type) : Type :=
  | Return (a : A)
  | Raise (e : exn)
  | OutOfFuel.

Arguments Return {A} a.
Arguments Raise {A} e.
Arguments OutOfFuel {A}.

#[global] Instance outcome_ret : MRet outcome := fun A a => Return a.

#[global] Instance outcome_bind : MBind outcome := fun A B f m =>
  match m with
  | Return a => f a
  | Raise e => Raise e
  | OutOfFuel => OutOfFuel
  end.

(** [for x in l: st = body(st, x)], stopping at the first exception. *)
Fixpoint for_each {S A : Type} (body : S -> A -> outcome S) (l : list A) (st : S)
  : outcome S :=
  match l with
  | [] => Return st
  | x :: l' => st' ← body st x; for_each body l' st'
  end.

(** ** Python float arithmetic *)

Module PyFloat.

(** [n / d] rounded to the nearest integer, ties to the even one ([d > 0]). *)
Definition round_half_even (n d : Z) : Z :=
  let q := n / d in
  let r := n mod d in
  match 2 * r ?= d with
  | Lt => q
  | Gt => q + 1
  | Eq => if Z.even q then q else q + 1
  end.

(** The magnitude [m * 2^e], in units of [10^-8], rounded half-even: the
    digits CPython's [_Py_dg_dtoa] (mode 3, 8 places) produces. *)
Definition scaled8 (m : positive) (e : Z) : Z :=
  if 0 <=? e then Z.pos m * 2 ^ e * 10 ^ 8
  else round_half_even (Z.pos m * 10 ^ 8) (2 ^ (- e)).

(** [round(x, 8)] on a float ([float.__round__] with [ndigits = 8]):
    NaN and the infinities round to themselves; a finite [x] is turned into
    the decimal with 8 places nearest to its exact value, and that decimal
    [q / 10^8] is read back as the nearest float ([_Py_dg_strtod]). *)
Definition py_round8 (x : float) : float :=
  match Prim2SF x with
  | S754_finite s m e =>
      match scaled8 m e with
      | Z.pos q =>
          SF2Prim (SFdiv prec emax (S754_finite s q 0)
                                   (S754_finite false 100000000 0))
      | _ => SF2Prim (S754_zero s)
      end
  | _ => x
  end.

(** [sum(l)]: CPython 3.9 (the interpreter of the project's images) adds the
    items left to right, starting from [0]. *)
Definition py_sum (l : list float) : float :=
  fold_left PrimFloat.add l 0%float.

(** [a / b]: true division raises on a zero divisor of either sign. *)
Definition py_truediv (a b : float) : outcome float :=
  if (b =? 0)%float then Raise ZeroDivisionError else Return (a / b)%float.

(** [a > b] and [a != b]. *)
Definition py_gt (a b : float) : bool := (b <? a)%float.
Definition py_ne (a b : float) : bool := negb (a =? b)%float.

(** [max(first :: rest, key=key)]: the running maximum is replaced only by
    an item whose key is strictly greater. *)
Definition py_max {A : Type} (key : A -> float) (first : A) (rest : list A) : A :=
  fold_left (fun m x => if py_gt (key x) (key m) then x else m) rest first.

(** The floats above zero: positive finite numbers and [+inf] (a NaN
    compares false with everything). *)
Definition fpos (x : float) : Prop := (0 <? x)%float = true.

Definition sf_pos (x : spec_float) : Prop :=
  match x with
  | S754_finite false _ _ | S754_infinity false => True
  | _ => False
  end.

(** The comparison of two positive floats, read off their exponents and
    mantissas. *)
Definition sf_pos_lt (x y : spec_float) : Prop :=
  match x, y with
  | S754_finite false m1 e1, S754_finite false m2 e2 =>
      e1 < e2 \/ (e1 = e2 /\ (m1 < m2)%positive)
  | S754_finite false _ _, S754_infinity false => True
  | _, _ => False
  end.

End PyFloat.

(** ** [generate_distribution] *)

Module Allocation.
Import PyFloat.

(** One entry of [miners_data['miners']]. *)
Record Miner : Type := {
  miner_address : string;
  avg_participation_percentage : float
}.

(** A recipient dict [{"address": ..., "amount": ...}]. *)
Record Recipient : Type := {
  address : string;
  amount : float
}.

(** [{"token_name": ..., "recipients": [...]}] and the returned
    [{"distributions": [...]}]. *)
Record Distribution : Type := {
  token_name : string;
  recipients : list Recipient
}.

Record Payload : Type := {
  distributions : list Distribution
}.

(** The recipient dicts are mutable objects: the list [recipients] of the
    source holds references to them, and the correction assigns to a key of
    the object [max] returned.  The store maps a reference (a position) to
    the object's current contents. *)
Abbreviation ref := nat (only parsing).
Abbreviation store := (list Recipient) (only parsing).

Definition alloc (h : store) (o : Recipient) : store * ref :=
  (h ++ [o], length h).

Definition deref (h : store) (r : ref) : Recipient :=
  default {| address := EmptyString; amount := 0%float |} (h !! r).

(** [obj['amount'] = a] *)
Definition set_amount (h : store) (r : ref) (a : float) : store :=
  alter (fun o => {| address := address o; amount := a |}) r h.

(** The variables of the first pass. *)
Record pass_state : Type := {
  objs : store;
  recipient_refs : list ref;
  running_total : float
}.

Definition pass_init : pass_state :=
  {| objs := []; recipient_refs := []; running_total := 0%float |}.

(** The body of [for miner in miners_data['miners']]. *)
Definition pass_step (total_amount total_percentage : float)
    (st : pass_state) (miner : Miner) : outcome pass_state :=
  normalized_percentage ←
    py_truediv (avg_participation_percentage miner) total_percentage;
  let amount := py_round8 (total_amount * normalized_percentage)%float in
  if py_gt amount 0%float then
    let '(h, r) := alloc (objs st)
                     {| address := miner_address miner; amount := amount |} in
    Return {| objs := h;
              recipient_refs := recipient_refs st ++ [r];
              running_total := (running_total st + amount)%float |}
  else Return st.

Definition first_pass (miners : list Miner) (total_amount : float)
  : outcome pass_state :=
  let total_percentage := py_sum (map avg_participation_percentage miners) in
  for_each (pass_step total_amount total_percentage) miners pass_init.

(** [round(total_amount - running_total, 8)] *)
Definition discrepancy_of (total_amount : float) (st : pass_state) : float :=
  py_round8 (total_amount - running_total st)%float.

(** [if recipients: ...]: the rounding correction, as a store update. *)
Definition adjust (total_amount : float) (st : pass_state) : store :=
  match recipient_refs st with
  | [] => objs st
  | first :: rest =>
      let discrepancy := discrepancy_of total_amount st in
      if py_ne discrepancy 0%float then
        let largest_recipient :=
          py_max (fun x => amount (deref (objs st) x)) first rest in
        set_amount (objs st) largest_recipient
          (py_round8 (amount (deref (objs st) largest_recipient) + discrepancy)%float)
      else objs st
  end.

Definition generate_distribution (miners : list Miner) (total_amount : float)
    (token_name : string) : outcome Payload :=
  st ← first_pass miners total_amount;
  let h := adjust total_amount st in
  Return {| distributions :=
              [ {| token_name := token_name;
                   recipients := map (deref h) (recipient_refs st) |} ] |}.

(** [sum(recipient['amount'] for recipient in recipients)], the
    [final_total] the function prints before it returns. *)
Definition final_total (rs : list Recipient) : float :=
  py_sum (map amount rs).

(** The recipient dicts as they stand after the first pass, before the
    correction, and the running total. *)
Definition first_pass_recipients (st : pass_state) : list Recipient :=
  map (deref (objs st)) (recipient_refs st).

(** The exact value of [x] in units of [2^e], when it is a whole number of
    them. *)
Definition units_of (e : Z) (x : float) : option Z :=
  match Prim2SF x with
  | S754_zero _ => Some 0
  | S754_finite s m ex =>
      if e <=? ex then
        Some ((if s then -1 else 1) * Z.pos m * 2 ^ (ex - e))
      else None
  | _ => None
  end.

(** The exact sum of the amounts of [rs], in units of [2^e]. *)
Definition exact_total (e : Z) (rs : list Recipient) : option Z :=
  foldr (fun r acc => u ← units_of e (amount r); t ← acc; Some (u + t))
        (Some 0) rs.

(** What the first pass maintains: the list holds the references of the
    store in allocation order, and every stored amount is above zero. *)
Definition pass_inv (st : pass_state) : Prop :=
  recipient_refs st = seq 0 (length (objs st))
  /\ Forall (fun o => fpos (amount o)) (objs st).

End Allocation.

(** ** [BlockHeightCollector] *)

Module BlockHeightCollector.

(** An input box of a transaction; [input_data.get("address")]. *)
Record Input : Type := {
  input_address : option string
}.

(** A transaction of the feed, as far as the collector reads it:
    [tx.get("inclusionHeight")] and [tx.get("inputs")]. *)
Record Tx : Type := {
  inclusionHeight : option Z;
  inputs : option (list Input)
}.

(** The parameters of one call of the transactions endpoint. *)
Record Request : Type := {
  offset : nat;
  limit : nat;
  concise : bool
}.

(** The explorer: the address's transactions, newest first, and which calls
    of a run (numbered from 0 in the order they are made) fail. *)
Record Api : Type := {
  history : list Tx;
  fails : nat -> bool
}.

(** Code that talks to the explorer threads the log of the calls made so
    far. *)
Definition io (A : Type) : Type := list Request -> outcome A * list Request.

#[global] Instance io_ret : MRet io := fun A a log => (Return a, log).

#[global] Instance io_bind : MBind io := fun A B f m log =>
  match m log with
  | (Return a, log') => f a log'
  | (Raise e, log') => (Raise e, log')
  | (OutOfFuel, log') => (OutOfFuel, log')
  end.

Definition lift {A : Type} (o : outcome A) : io A := fun log => (o, log).

(** [try: body except Exception: handler] *)
Definition try_except {A : Type} (body : io A) (handler : exn -> io A) : io A :=
  fun log =>
    match body log with
    | (Raise e, log') => handler e log'
    | r => r
    end.

(** [requests.get(url, params=...)], [raise_for_status()] and
    [response.json()["items"]]: the page of the feed at [offset], at most
    [limit] long. *)
Definition get_items (api : Api) (req : Request) : io (list Tx) :=
  fun log =>
    (if fails api (length log) then Raise HTTPError
     else Return (take (limit req) (drop (offset req) (history api))),
     log ++ [req]).

Section Collector.
Variable wallet_address : string.
Variable api : Api.

(** [any(input_data.get("address") == self.wallet_address
         for input_data in tx.get("inputs", []))] *)
Definition is_outgoing (tx : Tx) : bool :=
  existsb (fun input_data =>
             match input_address input_data with
             | Some a => String.eqb a wallet_address
             | None => false
             end)
          (default [] (inputs tx)).

(** The [for tx in response.json()["items"]] loop of
    [get_latest_outgoing_block] with its [return]s. *)
Fixpoint first_outgoing (items : list Tx) : outcome Z :=
  match items with
  | [] => Return 0
  | tx :: rest =>
      if is_outgoing tx then
        match inclusionHeight tx with
        | Some h => Return h
        | None => Raise KeyError
        end
      else first_outgoing rest
  end.

(** [get_latest_outgoing_block], with the literal of its [limit]
    parameter named. *)
Definition get_latest_outgoing_block_with (page_limit : nat) : io Z :=
  try_except
    (items ← get_items api {| offset := 0; limit := page_limit; concise := false |};
     lift (first_outgoing items))
    (fun _ => mret 0).

Definition get_latest_outgoing_block : io Z :=
  get_latest_outgoing_block_with 50.

(** [if tx.get("inclusionHeight", 0) > min_block:
       all_blocks.add(tx["inclusionHeight"])] *)
Definition collect_tx (min_block : Z) (all_blocks : gset Z) (tx : Tx)
  : outcome (gset Z) :=
  if default 0 (inclusionHeight tx) >? min_block then
    match inclusionHeight tx with
    | Some h => Return ({[ h ]} ∪ all_blocks)
    | None => Raise KeyError
    end
  else Return all_blocks.

(** The [while True] loop, unrolled at most [fuel] times. *)
Fixpoint scan_pages (fuel : nat) (limit : nat) (min_block : Z)
    (current_offset : nat) (all_blocks : gset Z) : io (gset Z) :=
  match fuel with
  | O => fun log => (OutOfFuel, log)
  | S fuel' =>
      items ← get_items api
                {| offset := current_offset; limit := limit; concise := true |};
      match items with
      | [] => mret all_blocks
      | _ :: _ =>
          all_blocks' ← lift (for_each (collect_tx min_block) items all_blocks);
          if (length items <? limit)%nat then mret all_blocks'
          else scan_pages fuel' limit min_block (current_offset + limit)%nat all_blocks'
      end
  end.

(** Every pass of the loop but the last consumes a full, non-empty page of
    the feed, so [S (length history)] passes are never used up (lemma
    [scan_pages_fuel] below). *)
Definition scan_fuel : nat := S (length (history api)).

(** [sorted(list(all_blocks))] *)
Definition py_sorted (s : gset Z) : list Z := merge_sort Z.le (elements s).

(** The body of [get_blocks_since_last_outgoing] from [if not min_block] on,
    with the literal of [limit] named. *)
Definition blocks_since (page_limit : nat) (min_block : Z) : io (list Z) :=
  if min_block =? 0 then mret []
  else
    all_blocks ← scan_pages scan_fuel page_limit min_block 0%nat ∅;
    mret (py_sorted all_blocks).

(** [get_blocks_since_last_outgoing], with its three literals named: the
    page size of the reference query, the page size of the scan and the
    height assigned to [min_block]. *)
Definition collect_blocks_with (latest_limit scan_limit : nat) (reference : Z)
  : io (list Z) :=
  try_except
    (min_block ← get_latest_outgoing_block_with latest_limit;
     let min_block := reference in
     blocks_since scan_limit min_block)
    (fun _ => mret []).

Definition get_blocks_since_last_outgoing : io (list Z) :=
  collect_blocks_with 50 100 1449260.

End Collector.

(** The heights of a list of records that exceed [min_block]. *)
Definition heights_above (min_block : Z) (txs : list Tx) : gset Z :=
  list_to_set (filter (fun h => min_block < h) (omap inclusionHeight txs)).

End BlockHeightCollector.

(** ** Sample feeds *)

Module Samples.
Import BlockHeightCollector.

(** The default wallet of [BlockHeightCollector.__init__]. *)
Definition pool_wallet : string :=
  "9fE5o7913CKKe6wvNgM11vULjTuKiopPcvCaj7t2zcJWXM2gcLu".

(** A transaction paid into the wallet by somebody else, and one the wallet
    pays out of. *)
Definition incoming (h : Z) : Tx :=
  {| inclusionHeight := Some h;
     inputs := Some [ {| input_address := Some "9hSender" |} ] |}.

Definition outgoing (h : Z) : Tx :=
  {| inclusionHeight := Some h;
     inputs := Some [ {| input_address := Some pool_wallet |} ] |}.

(** An explorer none of whose calls fails. *)
Definition reliable (txs : list Tx) : Api :=
  {| history := txs; fails := fun _ => false |}.

(** 54 records; those at positions 51 to 54 lie above the reference height
    1449260, the fifty before them do not. *)
Definition feed54 : list Tx :=
  replicate 50 (incoming 1400000)
  ++ [incoming 1510299; incoming 1510211; incoming 1509996; incoming 1509846].

(** 51 records; only the last one is paid out of the wallet. *)
Definition feed51 : list Tx :=
  replicate 50 (incoming 1500000) ++ [outgoing 1400000].

(** Four records, the second one paid out of the wallet. *)
Definition feed_mixed : list Tx :=
  [incoming 1510299; outgoing 1509996; incoming 1509846; incoming 1400000].

(** An explorer whose second call (the first page of the scan) fails. *)
Definition flaky : Api :=
  {| history := [incoming 1500000]; fails := fun n => Nat.eqb n 1 |}.

(** Miners for the allocation. *)
Definition miner (a : string) (w : float) : Allocation.Miner :=
  {| Allocation.miner_address := a;
     Allocation.avg_participation_percentage := w |}.

Definition one_to_two : list Allocation.Miner :=
  [ miner "9minerA" 1; miner "9minerB" 2 ].

Definition three_equal : list Allocation.Miner :=
  [ miner "9minerA" 1; miner "9minerB" 1; miner "9minerC" 1 ].

Definition zero_weight : list Allocation.Miner :=
  [ miner "9minerA" 0 ].

(** What [generate_distribution] returns for [one_to_two] and a total of
    100000000: 33333333.33333333 and 66666666.66666666. *)
Definition one_to_two_paid : list Allocation.Recipient :=
  [ {| Allocation.address := "9minerA";
       Allocation.amount := 0x1.fca0555555554p+24 |};
    {| Allocation.address := "9minerB";
       Allocation.amount := 0x1.fca0555555554p+25 |} ].

(** The variables after the first pass over [three_equal] with a total
    of 1: three amounts of 0.33333333. *)
Definition three_equal_pass : Allocation.pass_state :=
  Eval vm_compute in
    match Allocation.first_pass three_equal 1 with
    | Return st => st
    | _ => Allocation.pass_init
    end.

End Samples.

(** ** [fetch_miners_data] and [validate_percentages] *)

Module MinerRewards.
Import PyFloat Allocation.

(** [str(n)] for an int. *)
Definition py_str (n : Z) : string := NilZero.string_of_int (Z.to_int n).

(** [",".join(map(str, block_heights))] *)
Definition blocks_param (block_heights : list Z) : string :=
  String.concat "," (map py_str block_heights).

Definition base_url : string :=
  "https://api.ergominers.com/sigscore/miners/average-participation".

(** [f"{base_url}?blocks={blocks_param}&days={days}"] *)
Definition request_url (block_heights : list Z) (days : Z) : string :=
  base_url +:+ "?blocks=" +:+ blocks_param block_heights
           +:+ "&days=" +:+ py_str days.

(** [c in s], to say which characters a piece of the URL is free of. *)
Fixpoint contains (c : Ascii.ascii) (s : string) : bool :=
  match s with
  | EmptyString => false
  | String a s' => Ascii.eqb a c || contains c s'
  end.

(** What a collaborator outside the program (the participation service, the
    file system) does with a call: it answers, or the call raises. *)
Inductive reply (A : Type) : Type :=
  | Answer (a : A)
  | Failure (e : exn).

Arguments Answer {A} a.
Arguments Failure {A} e.

Definition of_reply {A : Type} (r : reply A) : outcome A :=
  match r with
  | Answer a => Return a
  | Failure e => Raise e
  end.

Section Service.
(** [os.getenv], the key written in the source, and the service: the
    miners of [response.json()] for a URL and an [X-API-Key] header. *)
Variable getenv : string -> option string.
Variable builtin_api_key : string.
Variable service : string -> string -> reply (list Miner).

(** [api_key = os.getenv("MINING_WAVE_API_KEY")] with the fallback of
    [if not api_key]. *)
Definition api_key : string :=
  match getenv "MINING_WAVE_API_KEY" with
  | Some EmptyString | None => builtin_api_key
  | Some k => k
  end.

Definition fetch_miners_data (block_heights : list Z) (days : Z)
  : outcome (list Miner) :=
  of_reply (service (request_url block_heights days) api_key).

End Service.

(** [validate_percentages]: is the sum of the percentages within
    [99.99, 100.01]?  The two literals are the doubles Python reads them
    as. *)
Definition validate_percentages (miners : list Miner) : bool :=
  let total_percentage := py_sum (map avg_participation_percentage miners) in
  if negb ((0x1.8ff5c28f5c28fp+6 <=? total_percentage)%float
           && (total_percentage <=? 0x1.900a3d70a3d71p+6)%float)
  then false
  else true.

(** [round(total_amount * normalized_percentage, 8)] for one miner. *)
Definition share (total_amount total_percentage : float) (miner : Miner)
  : float :=
  py_round8
    (total_amount * (avg_participation_percentage miner / total_percentage))%float.

(** The miners the first pass keeps, [if amount > 0], and the dict it
    builds for each. *)
Definition paid (total_amount total_percentage : float) (miner : Miner) : bool :=
  py_gt (share total_amount total_percentage miner) 0.

Definition recipient_of (total_amount total_percentage : float) (miner : Miner)
  : Recipient :=
  {| address := miner_address miner;
     amount := share total_amount total_percentage miner |}.

End MinerRewards.

(** ** [main] of the demurrage run *)

Module Demurrage.
Import PyFloat Allocation BlockHeightCollector MinerRewards.

(** Everything outside the program: the explorer, the environment
    variables, the participation service and the file system
    ([save_distribution_json]). *)
Record World : Type := {
  explorer : Api;
  getenv : string -> option string;
  service : string -> string -> reply (list Miner);
  disk : string -> Payload -> reply unit
}.

(** The three ways [main] ends: the early [return], the saved file, and the
    [except Exception] branch. *)
Inductive ending : Type :=
  | NoBlocksFound
  | Saved (output_file : string) (distribution : Payload)
  | ProcessingError (e : exn).

(** A run of [main]: how it ended, the explorer calls and the service URLs
    it requested. *)
Record run : Type := {
  ended : outcome ending;
  explorer_calls : list Request;
  service_calls : list string
}.

Section Main.
Variable builtin_api_key : string.
Variable w : World.

(** [os.getenv('WALLET_ADDRESS', wallet_address)] with the default argument
    of [__init__]. *)
Definition wallet : string :=
  default Samples.pool_wallet (getenv w "WALLET_ADDRESS").

(** [f"distribution_{len(block_heights)}_blocks.json"] *)
Definition output_file_name (block_heights : list Z) : string :=
  "distribution_" +:+ py_str (Z.of_nat (length block_heights))
                  +:+ "_blocks.json".

(** The body of the [try]. *)
Definition process (block_heights : list Z) : outcome ending :=
  miners_data ←
    fetch_miners_data (getenv w) builtin_api_key (service w) block_heights 30;
  distribution ← generate_distribution miners_data 5.5 "ergo";
  let output_file := output_file_name block_heights in
  _ ← of_reply (disk w output_file distribution);
  Return (Saved output_file distribution).

Definition main : run :=
  match get_blocks_since_last_outgoing wallet (explorer w) [] with
  | (Return block_heights, log) =>
      match block_heights with
      | [] => {| ended := Return NoBlocksFound;
                 explorer_calls := log; service_calls := [] |}
      | _ :: _ =>
          {| ended := match process block_heights with
                      | Raise e => Return (ProcessingError e)
                      | r => r
                      end;
             explorer_calls := log;
             service_calls := [request_url block_heights 30] |}
      end
  | (Raise e, log) =>
      {| ended := Raise e; explorer_calls := log; service_calls := [] |}
  | (OutOfFuel, log) =>
      {| ended := OutOfFuel; explorer_calls := log; service_calls := [] |}
  end.

End Main.

End Demurrage.

(** ** More sample data *)

Module MoreSamples.
Import BlockHeightCollector MinerRewards Demurrage Samples.

(** Two positive weights and a negative one. *)
Definition mixed_signs : list Allocation.Miner :=
  [ miner "9minerA" 5; miner "9minerB" 5; miner "9minerC" (-9) ].

Definition sixty_forty : list Allocation.Miner :=
  [ miner "9minerA" 60; miner "9minerB" 40 ].

(** A service that knows one block list, and a file system that takes
    everything. *)
Definition one_answer (url : string) (miners : list Allocation.Miner)
  : string -> string -> reply (list Allocation.Miner) :=
  fun u _ => if String.eqb u url then Answer miners else Failure HTTPError.

Definition roomy : string -> Allocation.Payload -> reply unit :=
  fun _ _ => Answer tt.

Definition world_of (api : Api) (miners : list Allocation.Miner) : World :=
  {| explorer := api;
     getenv := fun _ => None;
     service :=
       one_answer
         "https://api.ergominers.com/sigscore/miners/average-participation?blocks=1509846,1509996,1510299&days=30"
         miners;
     disk := roomy |}.

(** The variables after the first pass over [one_to_two] with a total of
    100000000. *)
Definition one_to_two_pass : Allocation.pass_state :=
  Eval vm_compute in
    match Allocation.first_pass one_to_two 100000000 with
    | Return st => st
    | _ => Allocation.pass_init
    end.

(** Seven equal weights with a total of 34000000, and the weights 1 and 6
    with a total of 90000000. *)
Definition seven_equal : list Allocation.Miner :=
  [ miner "9minerA" 1; miner "9minerB" 1; miner "9minerC" 1; miner "9minerD" 1;
    miner "9minerE" 1; miner "9minerF" 1; miner "9minerG" 1 ].

Definition seven_equal_pass : Allocation.pass_state :=
  Eval vm_compute in
    match Allocation.first_pass seven_equal 34000000 with
    | Return st => st
    | _ => Allocation.pass_init
    end.

Definition one_to_six : list Allocation.Miner :=
  [ miner "9minerA" 1; miner "9minerB" 6 ].

Definition one_to_six_pass : Allocation.pass_state :=
  Eval vm_compute in
    match Allocation.first_pass one_to_six 90000000 with
    | Return st => st
    | _ => Allocation.pass_init
    end.

End MoreSamples.

(** * Checks of the float model against CPython *)

Section FloatChecks.
Import PyFloat.

(** [round(0.001953125, 8) == 0.00195312] and
    [round(0.005859375, 8) == 0.00585938]: both arguments are binary
    fractions half-way between two decimals, and the even one is taken. *)
Example round_half_way_down :
  py_round8 0.001953125 = 0x1.ffffaa19c4774p-10%float.
Proof. vm_compute. reflexivity. Qed.

Example round_half_way_up :
  py_round8 0.005859375 = 0x1.800015798ee23p-8%float.
Proof. vm_compute. reflexivity. Qed.

(** [round(0.1 + 0.2, 8) == 0.3], although [0.1 + 0.2 != 0.3]. *)
Example round_sum_of_tenths :
  py_round8 (0x1.999999999999ap-4 + 0x1.999999999999ap-3)
  = 0x1.3333333333333p-2%float
  /\ (0x1.999999999999ap-4 + 0x1.999999999999ap-3)%float
     = 0x1.3333333333334p-2%float.
Proof. split; vm_compute; reflexivity. Qed.

(** [round(1e-09, 8) == 0.0], and infinities and NaN round to themselves. *)
Example round_below_half_unit : py_round8 0x1.12e0be826d695p-30 = 0%float.
Proof. vm_compute. reflexivity. Qed.

Example round_infinity : py_round8 infinity = infinity.
Proof. vm_compute. reflexivity. Qed.

(** [1.0 / 0.0] and [1.0 / -0.0] raise; a NaN is neither above zero nor
    equal to it. *)
Example truediv_by_zero :
  py_truediv 1 0 = Raise ZeroDivisionError
  /\ py_truediv 1 (-0) = Raise ZeroDivisionError.
Proof. split; reflexivity. Qed.

Example nan_comparisons : py_gt nan 0 = false /\ py_ne nan 0 = true.
Proof. split; reflexivity. Qed.

(** [max([3.0, 5.0, 5.0, 2.0], key=...)] is the first 5.0 (position 1). *)
Example max_takes_first_of_ties :
  py_max (fun i => nth i [3; 5; 5; 2]%float 0%float) 0%nat [1; 2; 3]%nat = 1%nat.
Proof. reflexivity. Qed.

End FloatChecks.

(** * Loops *)

Lemma for_each_cons {S A : Type} (body : S -> A -> outcome S) x l st :
  for_each body (x :: l) st = body st x ≫= for_each body l.
Proof. reflexivity. Qed.

(** * The order of positive floats *)

Section FloatOrder.
Import PyFloat.

Lemma fpos_sf_pos x : fpos x -> sf_pos (Prim2SF x).
Proof.
  unfold fpos. rewrite ltb_spec.
  change (Prim2SF 0) with (S754_zero false).
  by destruct (Prim2SF x) as [[]|[]| |[] m e].
Qed.

Lemma SFltb_sf_pos_lt x y :
  sf_pos x -> sf_pos y -> SFltb x y = true <-> sf_pos_lt x y.
Proof.
  destruct x as [[]|[]| |[] m1 e1], y as [[]|[]| |[] m2 e2];
    simpl; try done.
  intros _ _. unfold SFltb, SFcompare.
  change (Pos.compare_cont Eq m1 m2) with (m1 ?= m2)%positive.
  destruct (Z.compare_spec e1 e2); [|naive_solver lia..].
  destruct (Pos.compare_spec m1 m2); naive_solver lia.
Qed.

Lemma float_ltb_pos_lt a b :
  fpos a -> fpos b ->
  (a <? b)%float = true <-> sf_pos_lt (Prim2SF a) (Prim2SF b).
Proof.
  intros Ha Hb. rewrite ltb_spec.
  apply SFltb_sf_pos_lt; by apply fpos_sf_pos.
Qed.

Lemma float_gt_irrefl a : fpos a -> py_gt a a = false.
Proof.
  intros Ha. apply not_true_is_false. unfold py_gt.
  rewrite float_ltb_pos_lt by done.
  apply fpos_sf_pos in Ha.
  destruct (Prim2SF a) as [[]|[]| |[] m e]; simpl in *; lia.
Qed.

Lemma float_gt_trans a b c :
  fpos a -> fpos b -> fpos c ->
  py_gt a b = true -> py_gt b c = true -> py_gt a c = true.
Proof.
  intros Ha Hb Hc. unfold py_gt.
  rewrite !float_ltb_pos_lt by done.
  apply fpos_sf_pos in Ha, Hb, Hc.
  destruct (Prim2SF a) as [[]|[]| |[] m1 e1],
           (Prim2SF b) as [[]|[]| |[] m2 e2],
           (Prim2SF c) as [[]|[]| |[] m3 e3]; simpl in *; try done; lia.
Qed.

(** If [a > c], any positive [b] is below [a] or above [c]. *)
Lemma float_gt_cotrans a b c :
  fpos a -> fpos b -> fpos c ->
  py_gt a c = true -> py_gt a b = true \/ py_gt b c = true.
Proof.
  intros Ha Hb Hc. unfold py_gt.
  rewrite !float_ltb_pos_lt by done.
  apply fpos_sf_pos in Ha, Hb, Hc.
  destruct (Prim2SF a) as [[]|[]| |[] m1 e1],
           (Prim2SF b) as [[]|[]| |[] m2 e2],
           (Prim2SF c) as [[]|[]| |[] m3 e3]; simpl in *; try done; try lia;
    auto.
Qed.

End FloatOrder.

(** * Properties of the allocation *)

Section AllocationFacts.
Import PyFloat Allocation.

Lemma py_max_snoc {A : Type} (key : A -> float) first rest x :
  py_max key first (rest ++ [x]) =
    if py_gt (key x) (key (py_max key first rest)) then x
    else py_max key first rest.
Proof. unfold py_max. by rewrite fold_left_app. Qed.

(** [max] over items with positive keys returns the first item whose key is
    the largest: no key is greater, and every earlier key is smaller. *)
Lemma py_max_spec {A : Type} (key : A -> float) (first : A) (rest : list A) :
  Forall (fun x => fpos (key x)) (first :: rest) ->
  exists i,
    (first :: rest) !! i = Some (py_max key first rest)
    /\ (forall y, y ∈ first :: rest ->
          py_gt (key y) (key (py_max key first rest)) = false)
    /\ (forall j y, (j < i)%nat -> (first :: rest) !! j = Some y ->
          py_gt (key (py_max key first rest)) (key y) = true).
Proof.
  induction rest as [|x rest IH] using rev_ind; intros Hpos.
  - exists 0%nat. split; [done|]. split.
    + intros y Hy. apply list_elem_of_singleton in Hy as ->.
      apply float_gt_irrefl. by inversion Hpos.
    + intros j y Hj. lia.
  - rewrite app_comm_cons in Hpos. apply Forall_app in Hpos as [Hpos Hx].
    apply Forall_inv in Hx.
    destruct (IH Hpos) as (i & Hi & Hmax & Hfirst).
    assert (Hm : fpos (key (py_max key first rest))).
    { rewrite Forall_forall in Hpos. apply Hpos.
      by eapply list_elem_of_lookup_2. }
    rewrite py_max_snoc.
    destruct (py_gt (key x) (key (py_max key first rest))) eqn:Hgt.
    + exists (length (first :: rest)). split; [|split].
      * rewrite app_comm_cons.
        rewrite lookup_app_r by lia. by rewrite Nat.sub_diag.
      * intros y Hy. rewrite app_comm_cons in Hy.
        apply elem_of_app in Hy as [Hy|Hy].
        -- apply not_true_is_false. intros Hyx.
           assert (py_gt (key y) (key (py_max key first rest)) = true) as Hc.
           { eapply (float_gt_trans _ (key x)); [|done|done|done|done].
             rewrite Forall_forall in Hpos. by apply Hpos. }
           by rewrite Hmax in Hc.
        -- apply list_elem_of_singleton in Hy as ->.
           by apply float_gt_irrefl.
      * intros j y Hj Hy. rewrite app_comm_cons in Hy.
        rewrite lookup_app_l in Hy by done.
        assert (Hyin : y ∈ first :: rest) by by eapply list_elem_of_lookup_2.
        assert (Hypos : fpos (key y)).
        { rewrite Forall_forall in Hpos. by apply Hpos. }
        destruct (float_gt_cotrans _ (key y) _ Hx Hypos Hm Hgt) as [?|Hc];
          [done|].
        by rewrite (Hmax y Hyin) in Hc.
    + exists i. split; [|split].
      * rewrite app_comm_cons. by apply lookup_app_l_Some.
      * intros y Hy. rewrite app_comm_cons in Hy.
        apply elem_of_app in Hy as [Hy|Hy]; [auto|].
        by apply list_elem_of_singleton in Hy as ->.
      * intros j y Hj Hy. rewrite app_comm_cons in Hy.
        apply lookup_lt_Some in Hi.
        rewrite lookup_app_l in Hy by lia. eauto.
Qed.

Lemma for_each_inv {S A : Type} (P : S -> Prop) (body : S -> A -> outcome S)
    (l : list A) (st st' : S) :
  (forall s x s', P s -> body s x = Return s' -> P s') ->
  P st -> for_each body l st = Return st' -> P st'.
Proof.
  intros Hstep. revert st.
  induction l as [|x l IH]; intros st Hst Hrun; simpl in Hrun.
  - by injection Hrun as <-.
  - destruct (body st x) as [s| |] eqn:Hbody; simpl in Hrun; try done.
    eauto.
Qed.

Lemma pass_step_inv total_amount total_percentage st miner st' :
  pass_inv st ->
  pass_step total_amount total_percentage st miner = Return st' ->
  pass_inv st'.
Proof.
  intros [Hrefs Hpos]. unfold pass_step, py_truediv.
  destruct (_ =? _)%float; simpl; [done|].
  destruct (py_gt _ 0) eqn:Hgt; intros [= <-]; [|done].
  split; simpl.
  - rewrite Hrefs, length_app. simpl.
    by rewrite Nat.add_1_r, seq_S.
  - apply Forall_app. split; [done|]. by apply Forall_singleton.
Qed.

Lemma first_pass_inv miners total_amount st :
  first_pass miners total_amount = Return st -> pass_inv st.
Proof.
  apply for_each_inv.
  - intros s x s'. apply pass_step_inv.
  - split; [done|constructor].
Qed.

(** Reading the store through the references [0 .. n-1] gives the store. *)
Lemma map_deref_seq (h : store) : map (deref h) (seq 0 (length h)) = h.
Proof.
  apply list_eq. intros i.
  change (map (deref h) (seq 0 (length h))) with (deref h <$> seq 0 (length h)).
  rewrite list_lookup_fmap.
  destruct (decide (i < length h)%nat) as [Hi|Hi].
  - rewrite lookup_seq_lt by done. simpl. unfold deref.
    destruct (lookup_lt_is_Some_2 h i Hi) as [o Ho]. by rewrite Ho.
  - rewrite lookup_seq_ge by lia. simpl.
    symmetry. apply lookup_ge_None. lia.
Qed.

Lemma first_pass_recipients_objs st :
  pass_inv st -> first_pass_recipients st = objs st.
Proof.
  intros [Hrefs _]. unfold first_pass_recipients.
  rewrite Hrefs. apply map_deref_seq.
Qed.

(** The run of [generate_distribution] when the correction fires: the
    returned list is the first-pass list with one entry rewritten, the first
    one of largest amount. *)
Lemma generate_distribution_corrected miners total_amount name st :
  first_pass miners total_amount = Return st ->
  first_pass_recipients st <> [] ->
  py_ne (discrepancy_of total_amount st) 0 = true ->
  exists i r,
    first_pass_recipients st !! i = Some r
    /\ (forall r', r' ∈ first_pass_recipients st ->
          py_gt (amount r') (amount r) = false)
    /\ (forall j r', (j < i)%nat -> first_pass_recipients st !! j = Some r' ->
          py_gt (amount r) (amount r') = true)
    /\ generate_distribution miners total_amount name =
         Return {| distributions :=
           [ {| token_name := name;
                recipients :=
                  <[ i := {| address := address r;
                             amount := py_round8
                               (amount r + discrepancy_of total_amount st)%float |} ]>
                    (first_pass_recipients st) |} ] |}.
Proof.
  intros Hrun Hne Hdisc.
  pose proof (first_pass_inv _ _ _ Hrun) as Hinv.
  pose proof Hinv as [Hrefs Hpos].
  rewrite first_pass_recipients_objs in * by done.
  unfold generate_distribution. rewrite Hrun. simpl.
  unfold adjust.
  destruct (recipient_refs st) as [|first rest] eqn:Hlist.
  { destruct (objs st); [done|]. simpl in Hrefs. done. }
  rewrite Hdisc.
  set (key := fun x : ref => amount (deref (objs st) x)).
  assert (Hkey : forall j o, objs st !! j = Some o -> key j = amount o).
  { intros j o Ho. unfold key, deref. by rewrite Ho. }
  assert (Hkeys : Forall (fun x => fpos (key x)) (first :: rest)).
  { rewrite Hrefs. apply Forall_forall. intros j Hj.
    apply elem_of_seq in Hj.
    destruct (lookup_lt_is_Some_2 (objs st) j) as [o Ho]; [lia|].
    rewrite (Hkey j o Ho).
    rewrite Forall_forall in Hpos. apply Hpos.
    by eapply list_elem_of_lookup_2. }
  destruct (py_max_spec key first rest Hkeys) as (i & Hi & Hmax & Hfirst).
  set (m := py_max key first rest) in *.
  rewrite Hrefs in Hi, Hmax, Hfirst.
  apply lookup_seq in Hi as [Hm Hlt]. simpl in Hm.
  destruct (lookup_lt_is_Some_2 (objs st) i Hlt) as [r Hr].
  exists i, r. split; [done|]. split; [|split].
  - intros r' Hr'. apply list_elem_of_lookup_1 in Hr' as [j Hj].
    rewrite <- (Hkey j r' Hj), <- (Hkey i r Hr), <- Hm.
    apply Hmax. apply elem_of_seq. apply lookup_lt_Some in Hj. lia.
  - intros j r' Hj Hr'.
    rewrite <- (Hkey j r' Hr'), <- (Hkey i r Hr), <- Hm.
    apply (Hfirst j j Hj). apply lookup_seq. lia.
  - do 4 f_equal. rewrite Hrefs. unfold set_amount.
    rewrite <- (length_alter
                  (fun o => {| address := address o;
                               amount := py_round8
                                 (amount (deref (objs st) m)
                                  + discrepancy_of total_amount st)%float |})
                  (objs st) m).
    rewrite map_deref_seq, Hm.
    apply list_eq. intros j.
    destruct (decide (i = j)) as [<-|Hij].
    + rewrite list_lookup_alter_eq, list_lookup_insert_eq by done.
      rewrite Hr. simpl. unfold deref. by rewrite Hr.
    + by rewrite list_lookup_alter_ne, list_lookup_insert_ne.
Qed.

End AllocationFacts.

(** * The claims about the allocation *)

Section AllocationClaims.
Import PyFloat Allocation Samples.

(** C1 (refuted by the code): the amounts do not always add up to the
    total.  At a total of 100000000 split 1 : 2 the recipients get
    33333333.33333333 and 66666666.66666666.  The discrepancy after the first
    pass is 1e-08 and it is added to the second amount, but doubles near
    6.7e7 are 7.45e-9 apart: the float sum is 66666666.666666664, and
    [round] takes that back to the old amount.  The
    returned amounts add up to 99999999.99999999 as floats, which is not the
    total, not even after rounding both to 8 places; added exactly, in units
    of 2^-28, they are 4 units (1.49e-8) short of the total. *)
Theorem exact_sum_lost_at_1e8 :
  generate_distribution one_to_two 100000000 "ergo" =
    Return {| distributions :=
                [ {| token_name := "ergo"; recipients := one_to_two_paid |} ] |}
  /\ py_round8 (100000000 - final_total one_to_two_paid)
     = 0x1.5798ee2308c3ap-27%float
  /\ py_round8 (0x1.fca0555555554p+25 + 0x1.5798ee2308c3ap-27)
     = 0x1.fca0555555554p+25%float
  /\ final_total one_to_two_paid = 0x1.7d783ffffffffp+26%float
  /\ (final_total one_to_two_paid =? 100000000)%float = false
  /\ (py_round8 (final_total one_to_two_paid) =? py_round8 100000000)%float
     = false
  /\ exact_total (-28) one_to_two_paid = Some 26843545599999996
  /\ units_of (-28) 100000000 = Some 26843545600000000.
Proof. repeat split; vm_compute; reflexivity. Qed.

(** C5, as the code has it: when the weights add up to zero, an empty
    participation set yields a distribution without recipients, and a
    non-empty one raises [ZeroDivisionError] at its first miner. *)
Theorem zero_total_weight (miners : list Miner) (total_amount : float)
    (name : string) :
  (py_sum (map avg_participation_percentage miners) =? 0)%float = true ->
  generate_distribution miners total_amount name =
    match miners with
    | [] => Return {| distributions :=
                        [ {| token_name := name; recipients := [] |} ] |}
    | _ :: _ => Raise ZeroDivisionError
    end.
Proof.
  intros Hzero. destruct miners as [|miner miners]; [reflexivity|].
  unfold generate_distribution, first_pass.
  rewrite for_each_cons. unfold pass_step, py_truediv.
  by rewrite Hzero.
Qed.

Lemma zero_total_weight_samples :
  generate_distribution [] 5.5 "ergo" =
    Return {| distributions := [ {| token_name := "ergo"; recipients := [] |} ] |}
  /\ generate_distribution zero_weight 5.5 "ergo" = Raise ZeroDivisionError.
Proof.
  split.
  - apply (zero_total_weight [] 5.5 "ergo"). reflexivity.
  - apply (zero_total_weight zero_weight 5.5 "ergo"). reflexivity.
Defined.

(** C5 fails as stated: one miner of weight 0 makes the weights add up to
    zero, and the call raises instead of returning an empty distribution. *)
Lemma zero_weight_raises :
  (py_sum (map avg_participation_percentage zero_weight) =? 0)%float = true
  /\ generate_distribution zero_weight 5.5 "ergo" = Raise ZeroDivisionError.
Proof. split; vm_compute; reflexivity. Qed.

(** X15: when the first pass leaves recipients and the code's discrepancy
    [round(total_amount - running_total, 8)] compares unequal to zero, the
    returned list is the first-pass list with exactly one entry rewritten,
    to the float [round(amount + discrepancy, 8)] (which may be the old
    amount again): the entry at the first position [i] whose amount is the
    largest (no amount is greater, every earlier one is smaller). *)
Theorem discrepancy_goes_to_first_largest
    (miners : list Miner) (total_amount : float) (name : string)
    (st : pass_state) :
  first_pass miners total_amount = Return st ->
  first_pass_recipients st <> [] ->
  py_ne (discrepancy_of total_amount st) 0 = true ->
  exists i r,
    first_pass_recipients st !! i = Some r
    /\ (forall r', r' ∈ first_pass_recipients st ->
          py_gt (amount r') (amount r) = false)
    /\ (forall j r', (j < i)%nat -> first_pass_recipients st !! j = Some r' ->
          py_gt (amount r) (amount r') = true)
    /\ generate_distribution miners total_amount name =
         Return {| distributions :=
           [ {| token_name := name;
                recipients :=
                  <[ i := {| address := address r;
                             amount := py_round8
                               (amount r + discrepancy_of total_amount st)%float |} ]>
                    (first_pass_recipients st) |} ] |}.
Proof. apply generate_distribution_corrected. Qed.

(** Three equal weights and a total of 1: the three amounts tie at
    0.33333333, and the first one becomes 0.33333334. *)
Lemma discrepancy_goes_to_first_largest_thirds :
  generate_distribution three_equal 1 "ergo" =
    Return {| distributions :=
      [ {| token_name := "ergo";
           recipients :=
             [ {| address := "9minerA"; amount := 0x1.555555c7dda4bp-2 |};
               {| address := "9minerB"; amount := 0x1.5555551c112dap-2 |};
               {| address := "9minerC"; amount := 0x1.5555551c112dap-2 |} ] |} ] |}
  /\ exists i r,
    first_pass_recipients three_equal_pass !! i = Some r
    /\ (forall r', r' ∈ first_pass_recipients three_equal_pass ->
          py_gt (amount r') (amount r) = false)
    /\ (forall j r', (j < i)%nat ->
          first_pass_recipients three_equal_pass !! j = Some r' ->
          py_gt (amount r) (amount r') = true)
    /\ generate_distribution three_equal 1 "ergo" =
         Return {| distributions :=
           [ {| token_name := "ergo";
                recipients :=
                  <[ i := {| address := address r;
                             amount := py_round8
                               (amount r + discrepancy_of 1 three_equal_pass)%float |} ]>
                    (first_pass_recipients three_equal_pass) |} ] |}.
Proof.
  split; [vm_compute; reflexivity|].
  apply (discrepancy_goes_to_first_largest three_equal 1 "ergo" three_equal_pass).
  - vm_compute. reflexivity.
  - vm_compute. discriminate.
  - vm_compute. reflexivity.
Defined.

(** C6 (refuted by the code): the discrepancy is not always added, and not
    always in full.
    - Total 100000000 split 1 : 2: the first pass gives 33333333.33333333 and
      66666666.66666666, the discrepancy is 1e-08 and the correction fires,
      yet the returned list is the first-pass list: the largest amount is
      rewritten to itself, nothing is added.
    - Total 90000000 split 1 : 6: the first-pass amounts are, exactly, 3
      units of 2^-29 (5.6e-9; 1e-8 as decimals) short of the total, but the
      float [running_total] is the total, the code's discrepancy is 0 and no
      recipient is touched.
    - Total 34000000 over seven equal weights: the first-pass amounts are 22
      units of 2^-30 over the total (2e-8), the code's discrepancy is -1e-08,
      and the returned amounts are still 11 units over. *)
Theorem discrepancy_not_added_at_1e8 :
  (first_pass one_to_two 100000000 = Return MoreSamples.one_to_two_pass
   /\ first_pass_recipients MoreSamples.one_to_two_pass = one_to_two_paid
   /\ discrepancy_of 100000000 MoreSamples.one_to_two_pass
      = 0x1.5798ee2308c3ap-27%float
   /\ py_ne (discrepancy_of 100000000 MoreSamples.one_to_two_pass) 0 = true
   /\ generate_distribution one_to_two 100000000 "ergo" =
        Return {| distributions :=
          [ {| token_name := "ergo";
               recipients :=
                 first_pass_recipients MoreSamples.one_to_two_pass |} ] |})
  /\ (first_pass MoreSamples.one_to_six 90000000
        = Return MoreSamples.one_to_six_pass
      /\ exact_total (-29) (first_pass_recipients MoreSamples.one_to_six_pass)
         = Some (48318382080000000 - 3)
      /\ units_of (-29) 90000000 = Some 48318382080000000
      /\ discrepancy_of 90000000 MoreSamples.one_to_six_pass = 0%float
      /\ generate_distribution MoreSamples.one_to_six 90000000 "ergo" =
           Return {| distributions :=
             [ {| token_name := "ergo";
                  recipients :=
                    first_pass_recipients MoreSamples.one_to_six_pass |} ] |})
  /\ (first_pass MoreSamples.seven_equal 34000000
        = Return MoreSamples.seven_equal_pass
      /\ exact_total (-30) (first_pass_recipients MoreSamples.seven_equal_pass)
         = Some (36507222016000000 + 22)
      /\ units_of (-30) 34000000 = Some 36507222016000000
      /\ discrepancy_of 34000000 MoreSamples.seven_equal_pass
         = (-0x1.5798ee2308c3ap-27)%float
      /\ exists final,
           generate_distribution MoreSamples.seven_equal 34000000 "ergo" =
             Return {| distributions :=
               [ {| token_name := "ergo"; recipients := final |} ] |}
           /\ exact_total (-30) final = Some (36507222016000000 + 11)).
Proof.
  repeat split; try (vm_compute; reflexivity).
  eexists. split; vm_compute; reflexivity.
Qed.

(** C9: when the correction fires, the returned list has the length, the
    order and the addresses of the first-pass list; the entry at the selected
    position [i] (one of largest amount) keeps its address and gets the new
    amount, and every other entry is the first-pass entry, amount
    included. *)
Theorem correction_changes_one_amount
    (miners : list Miner) (total_amount : float) (name : string)
    (st : pass_state) :
  first_pass miners total_amount = Return st ->
  first_pass_recipients st <> [] ->
  py_ne (discrepancy_of total_amount st) 0 = true ->
  exists i r final,
    generate_distribution miners total_amount name =
      Return {| distributions :=
                  [ {| token_name := name; recipients := final |} ] |}
    /\ first_pass_recipients st !! i = Some r
    /\ (forall r', r' ∈ first_pass_recipients st ->
          py_gt (amount r') (amount r) = false)
    /\ final !! i =
         Some {| address := address r;
                 amount := py_round8
                   (amount r + discrepancy_of total_amount st)%float |}
    /\ length final = length (first_pass_recipients st)
    /\ map address final = map address (first_pass_recipients st)
    /\ (forall j, j <> i -> final !! j = first_pass_recipients st !! j).
Proof.
  intros Hrun Hne Hdisc.
  destruct (generate_distribution_corrected miners total_amount name st
              Hrun Hne Hdisc) as (i & r & Hr & Hmax & _ & Hgen).
  eexists i, r, _. split; [exact Hgen|].
  pose proof (lookup_lt_Some _ _ _ Hr) as Hlt.
  split; [done|]. split; [done|].
  split; [by rewrite list_lookup_insert_eq|].
  split; [by rewrite length_insert|].
  split.
  - change (map address ?l) with (address <$> l).
    rewrite list_fmap_insert. simpl.
    apply list_insert_id. by rewrite list_lookup_fmap, Hr.
  - intros j Hj. by rewrite list_lookup_insert_ne.
Qed.

(** Three equal weights and a total of 1: the second and third entries stay
    at 0.33333333, the first becomes 0.33333334. *)
Lemma correction_changes_one_amount_thirds :
  first_pass_recipients three_equal_pass =
    [ {| address := "9minerA"; amount := 0x1.5555551c112dap-2 |};
      {| address := "9minerB"; amount := 0x1.5555551c112dap-2 |};
      {| address := "9minerC"; amount := 0x1.5555551c112dap-2 |} ]
  /\ exists i r final,
    generate_distribution three_equal 1 "ergo" =
      Return {| distributions :=
                  [ {| token_name := "ergo"; recipients := final |} ] |}
    /\ first_pass_recipients three_equal_pass !! i = Some r
    /\ (forall r', r' ∈ first_pass_recipients three_equal_pass ->
          py_gt (amount r') (amount r) = false)
    /\ final !! i =
         Some {| address := address r;
                 amount := py_round8
                   (amount r + discrepancy_of 1 three_equal_pass)%float |}
    /\ length final = length (first_pass_recipients three_equal_pass)
    /\ map address final = map address (first_pass_recipients three_equal_pass)
    /\ (forall j, j <> i ->
          final !! j = first_pass_recipients three_equal_pass !! j).
Proof.
  split; [vm_compute; reflexivity|].
  apply (correction_changes_one_amount three_equal 1 "ergo" three_equal_pass).
  - vm_compute. reflexivity.
  - vm_compute. discriminate.
  - vm_compute. reflexivity.
Defined.

End AllocationClaims.

(** * Properties of the block collector *)

Section CollectorFacts.
Import BlockHeightCollector.
Variable wallet_address : string.
Variable api : Api.

Local Ltac io_unfold :=
  unfold mbind, io_bind, mret, io_ret, lift, try_except, get_items in *.

(** The scan only ever appends to the log. *)
Lemma scan_pages_log_extends fuel page_limit min_block off acc log :
  exists rest,
    snd (scan_pages api fuel page_limit min_block off acc log) = log ++ rest.
Proof.
  revert off acc log.
  induction fuel as [|fuel IH]; intros off acc log; simpl.
  - exists []. by rewrite app_nil_r.
  - io_unfold.
    destruct (fails api (length log)); simpl.
    { by eexists. }
    destruct (take page_limit (drop off (history api))) as [|tx items] eqn:Hpage.
    { by eexists. }
    destruct (for_each _ (tx :: items) acc) as [acc'| |]; simpl;
      try by eexists.
    destruct (_ <? _)%nat; simpl.
    { by eexists. }
    destruct (IH (off + page_limit)%nat acc'
                (log ++ [{| offset := off; limit := page_limit; concise := true |}]))
      as [rest Hrest].
    rewrite Hrest. rewrite <- app_assoc. by eexists.
Qed.

(** The fuel [scan_fuel] is never used up: each further pass follows a
    full, non-empty page. *)
Lemma scan_pages_fuel fuel page_limit min_block off acc log :
  (length (history api) - off < fuel)%nat ->
  fst (scan_pages api fuel page_limit min_block off acc log) <> OutOfFuel.
Proof.
  revert off acc log.
  induction fuel as [|fuel IH]; intros off acc log Hfuel; [lia|]. simpl.
  io_unfold.
  destruct (fails api (length log)); simpl; [done|].
  destruct (take page_limit (drop off (history api))) as [|tx items] eqn:Hpage;
    [done|].
  destruct (for_each _ (tx :: items) acc) as [acc'| |] eqn:Hfor; simpl.
  - destruct (_ <? _)%nat eqn:Hshort; simpl; [done|].
    apply IH.
    apply Nat.ltb_ge in Hshort.
    assert (Hlen : length (tx :: items)
                   = (page_limit `min` (length (history api) - off))%nat).
    { by rewrite <- Hpage, length_take, length_drop. }
    simpl in *. lia.
  - done.
  - (* the loop over a page has no bound of its own to exhaust *)
    exfalso. clear -Hfor.
    revert acc Hfor. generalize (tx :: items) as l.
    induction l as [|t l IHl]; intros acc Hfor; simpl in Hfor; [done|].
    unfold collect_tx, mbind, outcome_bind in Hfor.
    destruct (_ >? _); [destruct (inclusionHeight t)|]; eauto; done.
Qed.

(** Beyond that bound the amount of fuel makes no difference: the bounded
    loop is the [while True] loop. *)
Lemma scan_pages_fuel_irrelevant fuel fuel' page_limit min_block off acc log :
  (length (history api) - off < fuel)%nat ->
  (fuel <= fuel')%nat ->
  scan_pages api fuel' page_limit min_block off acc log =
  scan_pages api fuel page_limit min_block off acc log.
Proof.
  revert fuel' off acc log.
  induction fuel as [|fuel IH]; intros fuel' off acc log Hfuel Hle; [lia|].
  destruct fuel' as [|fuel']; [lia|]. simpl.
  io_unfold.
  destruct (fails api (length log)); simpl; [done|].
  destruct (take page_limit (drop off (history api))) as [|tx items] eqn:Hpage;
    [done|].
  destruct (for_each _ (tx :: items) acc) as [acc'| |]; simpl; try done.
  destruct (_ <? _)%nat eqn:Hshort; simpl; [done|].
  apply IH; [|lia].
  apply Nat.ltb_ge in Hshort.
  assert (Hlen : length (tx :: items)
                 = (page_limit `min` (length (history api) - off))%nat).
  { by rewrite <- Hpage, length_take, length_drop. }
  simpl in *. lia.
Qed.

(** A failing call ends the scan with the exception it raised. *)
Lemma scan_pages_failure fuel page_limit min_block off acc log i :
  (length log <= i < length (snd (scan_pages api fuel page_limit min_block off acc log)))%nat ->
  fails api i = true ->
  fst (scan_pages api fuel page_limit min_block off acc log) = Raise HTTPError.
Proof.
  revert off acc log.
  induction fuel as [|fuel IH]; intros off acc log Hi Hfail; simpl in *; [lia|].
  io_unfold.
  destruct (fails api (length log)) eqn:Hhere; simpl in *; [done|].
  assert (Hne : i <> length log) by (intros ->; congruence).
  destruct (take page_limit (drop off (history api))) as [|tx items] eqn:Hpage.
  { simpl in Hi. rewrite length_app in Hi. simpl in Hi. lia. }
  destruct (for_each _ (tx :: items) acc) as [acc'| |]; simpl in *;
    try (rewrite length_app in Hi; simpl in Hi; lia).
  destruct (_ <? _)%nat; simpl in *;
    try (rewrite length_app in Hi; simpl in Hi; lia).
  apply IH; [|done].
  rewrite length_app. simpl. lia.
Qed.

(** The loop over one page needs no fuel. *)
Lemma first_outgoing_bounded items :
  first_outgoing wallet_address items <> OutOfFuel.
Proof.
  induction items as [|tx items IH]; simpl; [done|].
  destruct (is_outgoing _ tx); [by destruct (inclusionHeight tx)|done].
Qed.

(** The reference query never lets an exception out, and makes exactly one
    call. *)
Lemma get_latest_outgoing_block_total page_limit log :
  exists latest,
    get_latest_outgoing_block_with wallet_address api page_limit log =
      (Return latest,
       log ++ [{| offset := 0; limit := page_limit; concise := false |}]).
Proof.
  unfold get_latest_outgoing_block_with. io_unfold.
  destruct (fails api (length log)); simpl; [by eexists|].
  generalize (take page_limit (drop 0 (history api))) as items.
  intros items.
  pose proof (first_outgoing_bounded items) as Hfo.
  destruct (first_outgoing wallet_address items) as [h|e|];
    [by exists h|by exists 0|done].
Qed.

(** What the reference query answers when its call succeeds: the height of
    the first outgoing record among the first [page_limit] ones, and 0 when
    there is none there (or its height is missing). *)
Lemma get_latest_outgoing_block_spec page_limit log :
  fails api (length log) = false ->
  fst (get_latest_outgoing_block_with wallet_address api page_limit log) =
    match first_outgoing wallet_address (take page_limit (history api)) with
    | Return h => Return h
    | _ => Return 0
    end.
Proof.
  intros Hok. unfold get_latest_outgoing_block_with. io_unfold.
  rewrite Hok. simpl. rewrite drop_0.
  pose proof (first_outgoing_bounded (take page_limit (history api))) as Hfo.
  by destruct (first_outgoing _ _).
Qed.

(** Membership in [heights_above]. *)
Lemma elem_of_heights_above min_block txs x :
  x ∈ heights_above min_block txs <->
  min_block < x /\ exists tx, tx ∈ txs /\ inclusionHeight tx = Some x.
Proof.
  unfold heights_above.
  rewrite elem_of_list_to_set, list_elem_of_filter, list_elem_of_omap.
  naive_solver.
Qed.

Lemma heights_above_nil min_block : heights_above min_block [] = ∅.
Proof. reflexivity. Qed.

Lemma heights_above_app min_block txs1 txs2 :
  heights_above min_block (txs1 ++ txs2) =
    heights_above min_block txs1 ∪ heights_above min_block txs2.
Proof.
  apply set_eq. intros x.
  rewrite elem_of_union, !elem_of_heights_above.
  setoid_rewrite elem_of_app. naive_solver.
Qed.

Lemma heights_above_cons min_block tx txs :
  heights_above min_block (tx :: txs) =
    match inclusionHeight tx with
    | Some h =>
        if h >? min_block then {[ h ]} ∪ heights_above min_block txs
        else heights_above min_block txs
    | None => heights_above min_block txs
    end.
Proof.
  unfold heights_above. simpl.
  destruct (inclusionHeight tx) as [h|]; simpl; [|done].
  rewrite filter_cons.
  destruct (h >? min_block) eqn:Hgt; case_decide; try done.
  - apply Z.gtb_lt in Hgt. lia.
  - rewrite Z.gtb_ltb in Hgt. apply Z.ltb_ge in Hgt. lia.
Qed.

Lemma collect_tx_eq min_block acc tx :
  collect_tx min_block acc tx =
    match inclusionHeight tx with
    | Some h => if h >? min_block then Return ({[ h ]} ∪ acc) else Return acc
    | None => if 0 >? min_block then Raise KeyError else Return acc
    end.
Proof. unfold collect_tx. by destruct (inclusionHeight tx). Qed.

(** One page of the [for tx in data["items"]] loop: with a reference that
    is not negative no key is missing where it is read. *)
Lemma collect_page_spec min_block items acc :
  0 <= min_block ->
  for_each (collect_tx min_block) items acc =
    Return (heights_above min_block items ∪ acc).
Proof.
  intros Hmb. revert acc.
  induction items as [|tx items IH]; intros acc.
  - simpl. f_equal. rewrite heights_above_nil. set_solver.
  - rewrite for_each_cons, heights_above_cons, collect_tx_eq.
    destruct (inclusionHeight tx) as [h|] eqn:Hh; simpl.
    + destruct (h >? min_block) eqn:Hgt; simpl; rewrite IH; f_equal.
      set_solver.
    + destruct (0 >? min_block) eqn:Hgt; simpl; [|by rewrite IH].
      apply Z.gtb_lt in Hgt. lia.
Qed.

(** Whatever the reference, a page only adds heights above it. *)
Lemma collect_page_above min_block items acc s :
  for_each (collect_tx min_block) items acc = Return s ->
  (forall x, x ∈ acc -> min_block < x) ->
  forall x, x ∈ s -> min_block < x.
Proof.
  revert acc.
  induction items as [|tx items IH]; intros acc Hrun Hacc.
  - simpl in Hrun. by injection Hrun as <-.
  - rewrite for_each_cons, collect_tx_eq in Hrun.
    destruct (inclusionHeight tx) as [h|] eqn:Hh; simpl in Hrun.
    + destruct (h >? min_block) eqn:Hgt; simpl in Hrun;
        (eapply IH; [exact Hrun|]); [|done].
      intros x. rewrite elem_of_union, elem_of_singleton.
      apply Z.gtb_lt in Hgt.
      intros [->|?]; [lia|auto].
    + destruct (0 >? min_block); simpl in Hrun; [done|eauto].
Qed.

Lemma scan_pages_above fuel page_limit min_block off acc log s :
  fst (scan_pages api fuel page_limit min_block off acc log) = Return s ->
  (forall x, x ∈ acc -> min_block < x) ->
  forall x, x ∈ s -> min_block < x.
Proof.
  revert off acc log.
  induction fuel as [|fuel IH]; intros off acc log Hrun Hacc; simpl in Hrun;
    [done|].
  io_unfold.
  destruct (fails api (length log)); simpl in Hrun; [done|].
  destruct (take page_limit (drop off (history api))) as [|tx items] eqn:Hpage.
  { simpl in Hrun. by injection Hrun as <-. }
  destruct (for_each _ (tx :: items) acc) as [acc'| |] eqn:Hfor;
    simpl in Hrun; try done.
  pose proof (collect_page_above _ _ _ _ Hfor Hacc) as Hacc'.
  destruct (_ <? _)%nat; simpl in Hrun.
  - by injection Hrun as <-.
  - eapply IH; eauto.
Qed.

(** With no failing call from here on, the scan returns every height of the
    rest of the feed above the reference, whatever the page size. *)
Lemma scan_pages_spec fuel page_limit min_block off acc log :
  (0 < page_limit)%nat ->
  0 <= min_block ->
  (forall i, (length log <= i)%nat -> fails api i = false) ->
  (length (history api) - off < fuel)%nat ->
  fst (scan_pages api fuel page_limit min_block off acc log) =
    Return (heights_above min_block (drop off (history api)) ∪ acc).
Proof.
  intros Hlimit Hmb. revert off acc log.
  induction fuel as [|fuel IH]; intros off acc log Hok Hfuel; [lia|]. simpl.
  io_unfold.
  rewrite (Hok (length log)) by lia. simpl.
  destruct (take page_limit (drop off (history api))) as [|tx items] eqn:Hpage.
  - simpl. f_equal.
    assert (Hnil : drop off (history api) = []).
    { destruct (drop off (history api)); [done|].
      destruct page_limit; [lia|done]. }
    rewrite Hnil, heights_above_nil. set_solver.
  - rewrite collect_page_spec by done. simpl.
    destruct (_ <? _)%nat eqn:Hshort; simpl.
    + f_equal. apply Nat.ltb_lt in Hshort.
      assert (Hlen : length (tx :: items)
                     = (page_limit `min` length (drop off (history api)))%nat).
      { by rewrite <- Hpage, length_take. }
      rewrite <- Hpage, take_ge; [done|].
      simpl in *. lia.
    + rewrite IH.
      * f_equal. rewrite <- drop_drop, <- Hpage.
        rewrite <- (take_drop page_limit (drop off (history api))) at 3.
        rewrite heights_above_app. set_solver.
      * intros i Hi. apply Hok. rewrite length_app in Hi. lia.
      * apply Nat.ltb_ge in Hshort.
        assert (Hlen : length (tx :: items)
                       = (page_limit `min` (length (history api) - off))%nat).
        { by rewrite <- Hpage, length_take, length_drop. }
        simpl in *. lia.
Qed.

(** The first pass of the loop makes its call before anything else. *)
Lemma scan_pages_first_call fuel page_limit min_block off acc log :
  exists rest,
    snd (scan_pages api (S fuel) page_limit min_block off acc log) =
      log ++ {| offset := off; limit := page_limit; concise := true |} :: rest.
Proof.
  simpl. io_unfold.
  destruct (fails api (length log)); simpl; [by exists []|].
  destruct (take page_limit (drop off (history api))) as [|tx items];
    [by exists []|].
  destruct (for_each _ (tx :: items) acc) as [acc'| |]; simpl;
    try by exists [].
  destruct (_ <? _)%nat; simpl; [by exists []|].
  destruct (scan_pages_log_extends fuel page_limit min_block
              (off + page_limit)%nat acc'
              (log ++ [{| offset := off; limit := page_limit; concise := true |}]))
    as [rest Hrest].
  rewrite Hrest, <- app_assoc. by exists rest.
Qed.

(** The shape of the whole query: one reference call, whose answer is
    dropped, then the scan; an exception of the scan becomes the empty
    list. *)
Lemma collect_blocks_with_unfold latest_limit scan_limit reference log :
  reference <> 0 ->
  collect_blocks_with wallet_address api latest_limit scan_limit reference log =
    match scan_pages api (scan_fuel api) scan_limit reference 0 ∅
            (log ++ [{| offset := 0; limit := latest_limit; concise := false |}])
    with
    | (Return s, log') => (Return (py_sorted s), log')
    | (Raise e, log') => (Return [], log')
    | (OutOfFuel, log') => (OutOfFuel, log')
    end.
Proof.
  intros Href.
  unfold collect_blocks_with, blocks_since.
  destruct (get_latest_outgoing_block_total latest_limit log) as [latest Hlatest].
  unfold try_except, mbind, io_bind at 1. rewrite Hlatest.
  destruct (reference =? 0) eqn:Hz; [lia|].
  unfold mbind, io_bind.
  by destruct (scan_pages _ _ _ _ _ _ _) as [[s|e|] log'].
Qed.

(** The whole query, when the scan's calls (all but call 0) succeed. *)
Lemma collect_blocks_with_spec latest_limit scan_limit reference :
  (0 < scan_limit)%nat ->
  0 < reference ->
  (forall i, (1 <= i)%nat -> fails api i = false) ->
  fst (collect_blocks_with wallet_address api latest_limit scan_limit reference [])
    = Return (py_sorted (heights_above reference (history api))).
Proof.
  intros Hlimit Href Hok.
  rewrite collect_blocks_with_unfold by lia.
  pose proof (scan_pages_spec (scan_fuel api) scan_limit reference 0 ∅
                ([] ++ [{| offset := 0; limit := latest_limit; concise := false |}])
                Hlimit ltac:(lia)) as Hscan.
  destruct (scan_pages _ _ _ _ _ _ _) as [r log'].
  simpl in Hscan. rewrite Hscan.
  - simpl. do 2 f_equal. set_solver.
  - intros i Hi. apply Hok. simpl in Hi. lia.
  - unfold scan_fuel. lia.
Qed.

End CollectorFacts.

(** * The claims about the block collector *)

Section CollectorClaims.
Import BlockHeightCollector Samples.

(** A list sorted by [<=] without repetitions is sorted by [<]. *)
Lemma sorted_nodup_strict (l : list Z) :
  Sorted Z.le l -> NoDup l -> StronglySorted Z.lt l.
Proof.
  intros Hs Hnd. apply Sorted_StronglySorted in Hs; [|apply _].
  induction Hs as [|x l Hs IH Hx]; [constructor|].
  apply NoDup_cons in Hnd as [Hnotin Hnd].
  constructor; [auto|].
  rewrite Forall_forall in *. intros y Hy.
  assert (x <> y) by (intros ->; by apply Hnotin).
  specialize (Hx y Hy). lia.
Qed.

Lemma py_sorted_strict (s : gset Z) : StronglySorted Z.lt (py_sorted s).
Proof.
  unfold py_sorted. apply sorted_nodup_strict.
  - apply Sorted_merge_sort. apply _.
  - rewrite merge_sort_Permutation. apply NoDup_elements.
Qed.

Lemma elem_of_py_sorted (s : gset Z) x : x ∈ py_sorted s <-> x ∈ s.
Proof.
  unfold py_sorted. by rewrite merge_sort_Permutation, elem_of_elements.
Qed.

(** C2 (refuted by the code): the page size is not one shared constant.
    Every run of [get_blocks_since_last_outgoing] first asks for a page of
    50 records (the reference query) and then for pages of 100 (the scan). *)
Theorem page_limits_of_a_run (wallet : string) (api : Api) :
  exists rest,
    snd (get_blocks_since_last_outgoing wallet api []) =
      {| offset := 0; limit := 50; concise := false |}
      :: {| offset := 0; limit := 100; concise := true |}
      :: rest.
Proof.
  unfold get_blocks_since_last_outgoing.
  rewrite collect_blocks_with_unfold by done.
  destruct (scan_pages_first_call api (length (history api)) 100 1449260 0 ∅
              ([] ++ [{| offset := 0; limit := 50; concise := false |}]))
    as [rest Hrest].
  exists rest. unfold scan_fuel.
  by destruct (scan_pages _ _ _ _ _ _ _) as [[s|e|] log'].
Qed.

(** C3: over one and the same feed (no call failing), the block set does
    not depend on the page size, as long as a run keeps to one positive
    page size: a run with pages of [p] records and a run with pages of [q]
    records return the same list. *)
Theorem page_size_independence (wallet : string) (txs : list Tx) (p q : nat) :
  (0 < p)%nat -> (0 < q)%nat ->
  exists blocks,
    fst (collect_blocks_with wallet (reliable txs) p p 1449260 []) = Return blocks
    /\ fst (collect_blocks_with wallet (reliable txs) q q 1449260 []) = Return blocks.
Proof.
  intros Hp Hq. exists (py_sorted (heights_above 1449260 txs)).
  split; by apply (collect_blocks_with_spec wallet (reliable txs)).
Qed.

(** The 54-record feed: pages of 50 reach the records at positions 51 to
    54 on the second page, pages of 100 on the first. *)
Lemma page_size_independence_feed54 :
  (exists blocks,
     fst (collect_blocks_with pool_wallet (reliable feed54) 50 50 1449260 [])
       = Return blocks
     /\ fst (collect_blocks_with pool_wallet (reliable feed54) 100 100 1449260 [])
       = Return blocks)
  /\ collect_blocks_with pool_wallet (reliable feed54) 50 50 1449260 [] =
       (Return [1509846; 1509996; 1510211; 1510299],
        [ {| offset := 0; limit := 50; concise := false |};
          {| offset := 0; limit := 50; concise := true |};
          {| offset := 50; limit := 50; concise := true |} ])
  /\ collect_blocks_with pool_wallet (reliable feed54) 100 100 1449260 [] =
       (Return [1509846; 1509996; 1510211; 1510299],
        [ {| offset := 0; limit := 100; concise := false |};
          {| offset := 0; limit := 100; concise := true |} ]).
Proof.
  split; [|split].
  - apply (page_size_independence pool_wallet feed54 50 100); lia.
  - vm_compute. reflexivity.
  - vm_compute. reflexivity.
Defined.

(** C4, as the code has it: a failing call never reaches the caller as an
    error.  If the failing call is the reference query's (call 0),
    [get_latest_outgoing_block] answers 0; if it is one of the scan's, the
    scan stops there and [get_blocks_since_last_outgoing] returns the empty
    list, dropping what earlier pages had collected. *)
Theorem failed_fetch_gives_empty_list (wallet : string) (api : Api) (i : nat) :
  (i < length (snd (get_blocks_since_last_outgoing wallet api [])))%nat ->
  fails api i = true ->
  (i = 0%nat -> fst (get_latest_outgoing_block wallet api []) = Return 0)
  /\ (i <> 0%nat ->
      fst (get_blocks_since_last_outgoing wallet api []) = Return []).
Proof.
  intros Hi Hfail. split.
  - intros ->.
    unfold get_latest_outgoing_block, get_latest_outgoing_block_with,
      try_except, mbind, io_bind, get_items.
    simpl. by rewrite Hfail.
  - intros Hne.
    unfold get_blocks_since_last_outgoing in *.
    rewrite collect_blocks_with_unfold in * by done.
    pose proof (scan_pages_failure api (scan_fuel api) 100 1449260 0 ∅
                  ([] ++ [{| offset := 0; limit := 50; concise := false |}]) i)
      as Hscan.
    destruct (scan_pages _ _ _ _ _ _ _) as [[s|e|] log'];
      simpl in *; try done;
      (discriminate Hscan; [lia|done]).
Qed.

(** A 250-record feed whose third page fails (call 3 of the run): the height
    collected from the first two pages is dropped. *)
Lemma failed_fetch_gives_empty_list_third_page :
  let api := {| history := replicate 250 (incoming 1500000);
                fails := fun n => Nat.eqb n 3 |} in
  get_blocks_since_last_outgoing pool_wallet api [] =
    (Return [],
     [ {| offset := 0; limit := 50; concise := false |};
       {| offset := 0; limit := 100; concise := true |};
       {| offset := 100; limit := 100; concise := true |};
       {| offset := 200; limit := 100; concise := true |} ])
  /\ fst (get_blocks_since_last_outgoing pool_wallet api []) = Return [].
Proof.
  intros api. split.
  - vm_compute. reflexivity.
  - apply (failed_fetch_gives_empty_list pool_wallet api 3).
    + vm_compute. lia.
    + reflexivity.
    + discriminate.
Defined.

(** C4 fails as stated: the first page of the scan fails, and the caller
    gets the empty list as an ordinary result, where the feed holds a block
    above the reference. *)
Lemma failed_fetch_is_not_surfaced :
  fails flaky 1 = true
  /\ get_blocks_since_last_outgoing pool_wallet flaky [] =
       (Return [],
        [ {| offset := 0; limit := 50; concise := false |};
          {| offset := 0; limit := 100; concise := true |} ])
  /\ fst (get_blocks_since_last_outgoing pool_wallet
            (reliable (history flaky)) []) = Return [1500000].
Proof. repeat split; vm_compute; reflexivity. Qed.

(** C7: whatever the feed, the failing calls and the reference height, the
    query returns a list, and the list is strictly ascending (so without
    duplicates) with every element above the reference height. *)
Theorem block_set_sorted_unique_above
    (wallet : string) (api : Api) (reference : Z) (log : list Request) :
  exists l log',
    collect_blocks_with wallet api 50 100 reference log = (Return l, log')
    /\ StronglySorted Z.lt l
    /\ NoDup l
    /\ Forall (fun x => reference < x) l.
Proof.
  destruct (decide (reference = 0)) as [->|Href].
  - unfold collect_blocks_with, blocks_since.
    destruct (get_latest_outgoing_block_total wallet api 50 log) as [latest Hlatest].
    unfold try_except, mbind, io_bind at 1. rewrite Hlatest. simpl.
    eexists [], _. split; [reflexivity|].
    repeat split; constructor.
  - rewrite collect_blocks_with_unfold by done.
    pose proof (scan_pages_fuel api (scan_fuel api) 100 reference 0 ∅
                  (log ++ [{| offset := 0; limit := 50; concise := false |}]))
      as Hfuel.
    pose proof (scan_pages_above api (scan_fuel api) 100 reference 0 ∅
                  (log ++ [{| offset := 0; limit := 50; concise := false |}]))
      as Habove.
    destruct (scan_pages _ _ _ _ _ _ _) as [[s|e|] log']; simpl in *.
    + exists (py_sorted s), log'. split; [done|].
      pose proof (py_sorted_strict s) as Hsorted.
      repeat split; [done| |].
      * unfold py_sorted. rewrite merge_sort_Permutation. apply NoDup_elements.
      * apply Forall_forall. intros x Hx.
        apply elem_of_py_sorted in Hx.
        eapply Habove; [done| |done]. set_solver.
    + exists [], log'. split; [done|]. repeat split; constructor.
    + exfalso. apply Hfuel; [|done]. unfold scan_fuel. lia.
Qed.

(** C8 (refuted by the code): the reference query reads one page of 50
    records and no more.  In the 51-record feed the most recent record paid
    out of the wallet is the last one, at height 1400000; the query makes its
    single call and answers 0. *)
Theorem latest_outgoing_beyond_first_page :
  first_outgoing pool_wallet feed51 = Return 1400000
  /\ get_latest_outgoing_block pool_wallet (reliable feed51) [] =
       (Return 0, [ {| offset := 0; limit := 50; concise := false |} ]).
Proof. split; vm_compute; reflexivity. Qed.

(** C10: the block set is the set of heights of the feed above the literal
    1449260, in ascending order, and nothing else: two runs over the same
    feed return the same list whatever their reference queries returned
    (another wallet, a failed call 0, the answer 0). *)
Theorem blocks_independent_of_latest
    (wallet1 wallet2 : string) (api1 api2 : Api) :
  history api1 = history api2 ->
  (forall i, (1 <= i)%nat -> fails api1 i = false) ->
  (forall i, (1 <= i)%nat -> fails api2 i = false) ->
  fst (get_blocks_since_last_outgoing wallet1 api1 []) =
    Return (py_sorted (heights_above 1449260 (history api1)))
  /\ fst (get_blocks_since_last_outgoing wallet2 api2 []) =
     fst (get_blocks_since_last_outgoing wallet1 api1 []).
Proof.
  intros Hsame Hok1 Hok2. unfold get_blocks_since_last_outgoing.
  rewrite !collect_blocks_with_spec by (done || lia).
  by rewrite Hsame.
Qed.

(** On [feed_mixed] the reference query answers 1509996 for the pool's
    wallet and 0 for a wallet that never paid (9gNewcomer); both runs return
    the three blocks above 1449260, the one at height 1509996 and the one
    below it included. *)
Lemma blocks_independent_of_latest_feed_mixed :
  fst (get_latest_outgoing_block pool_wallet (reliable feed_mixed) [])
    = Return 1509996
  /\ fst (get_latest_outgoing_block "9gNewcomer" (reliable feed_mixed) [])
    = Return 0
  /\ py_sorted (heights_above 1449260 feed_mixed) = [1509846; 1509996; 1510299]
  /\ fst (get_blocks_since_last_outgoing pool_wallet (reliable feed_mixed) []) =
       Return (py_sorted (heights_above 1449260 feed_mixed))
  /\ fst (get_blocks_since_last_outgoing "9gNewcomer" (reliable feed_mixed) []) =
     fst (get_blocks_since_last_outgoing pool_wallet (reliable feed_mixed) []).
Proof.
  split; [vm_compute; reflexivity|].
  split; [vm_compute; reflexivity|].
  split; [vm_compute; reflexivity|].
  apply (blocks_independent_of_latest pool_wallet "9gNewcomer"
           (reliable feed_mixed) (reliable feed_mixed)).
  - reflexivity.
  - intros i _. reflexivity.
  - intros i _. reflexivity.
Defined.

End CollectorClaims.

(** * Further properties of the allocation *)

Section AllocationMore.
Import PyFloat Allocation MinerRewards Samples MoreSamples.

(** One pass of the loop when the total weight is not zero. *)
Lemma pass_step_eq total_amount total_percentage st m :
  (total_percentage =? 0)%float = false ->
  pass_step total_amount total_percentage st m =
    Return
      (if paid total_amount total_percentage m then
         {| objs := objs st ++ [recipient_of total_amount total_percentage m];
            recipient_refs := recipient_refs st ++ [length (objs st)];
            running_total :=
              (running_total st + share total_amount total_percentage m)%float |}
       else st).
Proof.
  intros Hnz. unfold pass_step, py_truediv, paid, share, recipient_of.
  rewrite Hnz. cbn [mbind outcome_bind].
  by destruct (py_gt _ 0).
Qed.

(** With a total weight that is not zero the loop of the first pass is a
    filter: it keeps the miners whose rounded share is above zero. *)
Lemma for_each_pass_step total_amount total_percentage miners st :
  (total_percentage =? 0)%float = false ->
  for_each (pass_step total_amount total_percentage) miners st =
    Return
      {| objs := objs st ++ map (recipient_of total_amount total_percentage)
                   (List.filter (paid total_amount total_percentage) miners);
         recipient_refs :=
           recipient_refs st
           ++ seq (length (objs st))
                (length (List.filter (paid total_amount total_percentage) miners));
         running_total :=
           fold_left PrimFloat.add
             (map (share total_amount total_percentage)
                (List.filter (paid total_amount total_percentage) miners))
             (running_total st) |}.
Proof.
  intros Hnz. revert st.
  induction miners as [|m miners IH]; intros st.
  - simpl. destruct st as [h refs rt]. simpl. by rewrite !app_nil_r.
  - rewrite for_each_cons, pass_step_eq by done.
    cbn [mbind outcome_bind List.filter].
    destruct (paid total_amount total_percentage m) eqn:Hpaid; [|apply IH].
    rewrite IH. cbn [objs recipient_refs running_total].
    f_equal. f_equal.
    + by rewrite <- app_assoc.
    + rewrite <- app_assoc, length_app. cbn [length map app seq].
      by rewrite Nat.add_1_r.
Qed.

Lemma first_pass_filter miners total_amount :
  let total_percentage := py_sum (map avg_participation_percentage miners) in
  let kept := List.filter (paid total_amount total_percentage) miners in
  (total_percentage =? 0)%float = false ->
  exists st,
    first_pass miners total_amount = Return st
    /\ first_pass_recipients st =
         map (recipient_of total_amount total_percentage) kept
    /\ running_total st =
         py_sum (map (share total_amount total_percentage) kept).
Proof.
  intros W kept Hnz. unfold first_pass. fold W.
  rewrite (for_each_pass_step total_amount W miners pass_init Hnz).
  eexists. split; [reflexivity|]. split; [|reflexivity].
  unfold first_pass_recipients. cbn [objs recipient_refs pass_init app length].
  fold kept.
  rewrite <- (length_map (recipient_of total_amount W) kept).
  apply map_deref_seq.
Qed.

(** Without recipients, or with a discrepancy that rounds to zero, the
    first-pass list is returned as it is. *)
Lemma generate_distribution_uncorrected miners total_amount name st :
  first_pass miners total_amount = Return st ->
  first_pass_recipients st = []
  \/ py_ne (discrepancy_of total_amount st) 0 = false ->
  generate_distribution miners total_amount name =
    Return {| distributions :=
                [ {| token_name := name;
                     recipients := first_pass_recipients st |} ] |}.
Proof.
  intros Hrun Hcase. unfold generate_distribution. rewrite Hrun.
  cbn [mbind outcome_bind]. unfold adjust, first_pass_recipients in *.
  destruct (recipient_refs st) as [|first rest]; [done|].
  destruct Hcase as [Hnil|Hzero]; [done|].
  by rewrite Hzero.
Qed.

(** A float at or above a positive one is not zero. *)
Lemma leb_pos_nonzero c t :
  fpos c -> (c <=? t)%float = true -> (t =? 0)%float = false.
Proof.
  intros Hc. apply fpos_sf_pos in Hc.
  rewrite FloatAxioms.leb_spec, FloatAxioms.eqb_spec.
  change (Prim2SF 0) with (S754_zero false).
  destruct (Prim2SF c) as [[]|[]| |[] m1 e1]; try done;
    by destruct (Prim2SF t) as [[]|[]| |[] m2 e2].
Qed.

(** The run of [generate_distribution] in either case: one distribution,
    with the addresses of the first-pass list. *)
Lemma generate_distribution_addresses miners total_amount name st :
  first_pass miners total_amount = Return st ->
  exists final,
    generate_distribution miners total_amount name =
      Return {| distributions :=
                  [ {| token_name := name; recipients := final |} ] |}
    /\ map address final = map address (first_pass_recipients st)
    /\ exists i, forall j r,
         j <> i -> final !! j = Some r -> fpos (amount r).
Proof.
  intros Hrun.
  pose proof (first_pass_inv _ _ _ Hrun) as Hinv.
  assert (Hpos : Forall (fun o => fpos (amount o)) (first_pass_recipients st)).
  { rewrite first_pass_recipients_objs by done. apply Hinv. }
  destruct (first_pass_recipients st) as [|r0 rs] eqn:Hfp.
  { exists []. rewrite (generate_distribution_uncorrected _ _ _ st Hrun)
      by (left; done).
    rewrite Hfp. split; [done|]. split; [done|]. exists 0%nat. by intros [|j]. }
  rewrite <- Hfp in *.
  destruct (py_ne (discrepancy_of total_amount st) 0) eqn:Hdisc.
  - destruct (generate_distribution_corrected miners total_amount name st
                Hrun ltac:(by rewrite Hfp) Hdisc)
      as (i & r & Hr & _ & _ & Hgen).
    eexists. split; [exact Hgen|]. split.
    + change (map address ?l) with (address <$> l).
      rewrite list_fmap_insert. simpl.
      apply list_insert_id. by rewrite list_lookup_fmap, Hr.
    + exists i. intros j r' Hj Hr'.
      rewrite list_lookup_insert_ne in Hr' by done.
      rewrite Forall_forall in Hpos. apply Hpos.
      by eapply list_elem_of_lookup_2.
  - exists (first_pass_recipients st).
    rewrite (generate_distribution_uncorrected _ _ _ st Hrun)
      by (right; done).
    split; [done|]. split; [done|].
    exists (length (first_pass_recipients st)). intros j r' _ Hr'.
    rewrite Forall_forall in Hpos. apply Hpos.
    by eapply list_elem_of_lookup_2.
Qed.

(** A total weight that is not zero is all [generate_distribution] needs
    to return. *)
Lemma recipients_nonzero_total miners total_amount name :
  (py_sum (map avg_participation_percentage miners) =? 0)%float = false ->
  exists final,
    generate_distribution miners total_amount name =
      Return {| distributions :=
                  [ {| token_name := name; recipients := final |} ] |}.
Proof.
  intros Hnz.
  destruct (first_pass_filter miners total_amount Hnz) as (st & Hrun & _).
  destruct (generate_distribution_addresses miners total_amount name st Hrun)
    as (final & Hgen & _).
  eauto.
Qed.

(** The recipients kept and their addresses. *)
Lemma recipients_are_paid miners total_amount name :
  let total_percentage := py_sum (map avg_participation_percentage miners) in
  (total_percentage =? 0)%float = false ->
  exists final,
    generate_distribution miners total_amount name =
      Return {| distributions :=
                  [ {| token_name := name; recipients := final |} ] |}
    /\ map address final =
         map miner_address
           (List.filter (paid total_amount total_percentage) miners).
Proof.
  intros W Hnz.
  destruct (first_pass_filter miners total_amount Hnz) as (st & Hrun & Hfp & _).
  destruct (generate_distribution_addresses miners total_amount name st Hrun)
    as (final & Hgen & Haddr & _).
  exists final. split; [done|].
  rewrite Haddr, Hfp. fold W.
  by rewrite map_map.
Qed.

(** X1: when the weights do not add up to zero, [generate_distribution]
    returns one distribution under the given token name, and its recipients
    are, in the order of the input, the miners whose rounded share is above
    zero: one entry per such miner, none for the others. *)
Theorem recipients_are_the_paid_miners
    (miners : list Miner) (total_amount : float) (name : string) :
  let total_percentage := py_sum (map avg_participation_percentage miners) in
  (total_percentage =? 0)%float = false ->
  exists final,
    generate_distribution miners total_amount name =
      Return {| distributions :=
                  [ {| token_name := name; recipients := final |} ] |}
    /\ map address final =
         map miner_address
           (List.filter (paid total_amount total_percentage) miners).
Proof. apply recipients_are_paid. Qed.

Lemma recipients_are_the_paid_miners_mixed_signs :
  List.filter (paid 1 1) mixed_signs = [miner "9minerA" 5; miner "9minerB" 5]
  /\ exists final,
    generate_distribution mixed_signs 1 "ergo" =
      Return {| distributions :=
                  [ {| token_name := "ergo"; recipients := final |} ] |}
    /\ map address final =
         map miner_address
           (List.filter
              (paid 1 (py_sum (map avg_participation_percentage mixed_signs)))
              mixed_signs).
Proof.
  split; [vm_compute; reflexivity|].
  apply (recipients_are_the_paid_miners mixed_signs 1 "ergo").
  vm_compute. reflexivity.
Defined.

(** X2: when the weights do not add up to zero and the discrepancy
    [round(total_amount - running_total, 8)] is zero, the returned
    recipients are the miners of positive rounded share, each with exactly
    that share [round(total_amount * (weight / total_weight), 8)]. *)
Theorem uncorrected_amounts_are_the_shares
    (miners : list Miner) (total_amount : float) (name : string) :
  let total_percentage := py_sum (map avg_participation_percentage miners) in
  let kept := List.filter (paid total_amount total_percentage) miners in
  (total_percentage =? 0)%float = false ->
  py_ne (py_round8
           (total_amount
            - py_sum (map (share total_amount total_percentage) kept))) 0
    = false ->
  generate_distribution miners total_amount name =
    Return {| distributions :=
      [ {| token_name := name;
           recipients :=
             map (recipient_of total_amount total_percentage) kept |} ] |}.
Proof.
  intros W kept Hnz Hzero.
  destruct (first_pass_filter miners total_amount Hnz) as (st & Hrun & Hfp & Hrt).
  rewrite (generate_distribution_uncorrected _ _ _ st Hrun).
  - by rewrite Hfp.
  - right. unfold discrepancy_of. by rewrite Hrt.
Qed.

(** 5.5 split 60 : 40 gives 3.3 and 2.2, which add up to 5.5. *)
Lemma uncorrected_amounts_are_the_shares_sixty_forty :
  generate_distribution sixty_forty 5.5 "ergo" =
    Return {| distributions :=
      [ {| token_name := "ergo";
           recipients := map (recipient_of 5.5 100) sixty_forty |} ] |}
  /\ map (recipient_of 5.5 100) sixty_forty =
       [ {| address := "9minerA"; amount := 0x1.a666666666666p+1 |};
         {| address := "9minerB"; amount := 0x1.199999999999ap+1 |} ].
Proof.
  split; [|vm_compute; reflexivity].
  apply (uncorrected_amounts_are_the_shares sixty_forty 5.5 "ergo").
  - vm_compute. reflexivity.
  - vm_compute. reflexivity.
Defined.

(** X3: a participation set that passes [validate_percentages] (weights
    adding up to between 99.99 and 100.01) never makes
    [generate_distribution] raise. *)
Theorem validated_weights_never_raise
    (miners : list Miner) (total_amount : float) (name : string) :
  validate_percentages miners = true ->
  exists p, generate_distribution miners total_amount name = Return p.
Proof.
  unfold validate_percentages. intros Hvalid.
  destruct (_ <=? _)%float eqn:Hlow; [|done].
  apply leb_pos_nonzero in Hlow; [|reflexivity].
  destruct (recipients_nonzero_total miners total_amount name Hlow)
    as (final & Hgen).
  eauto.
Qed.

Lemma validated_weights_never_raise_sixty_forty :
  validate_percentages sixty_forty = true
  /\ exists p, generate_distribution sixty_forty 5.5 "ergo" = Return p.
Proof.
  split; [reflexivity|].
  apply (validated_weights_never_raise sixty_forty 5.5 "ergo").
  reflexivity.
Defined.

(** X4: in whatever [generate_distribution] returns, every amount is above
    zero, except possibly one: the amount the correction rewrote, which can
    be negative. *)
Theorem only_the_corrected_amount_can_be_non_positive
    (miners : list Miner) (total_amount : float) (name : string) (p : Payload) :
  generate_distribution miners total_amount name = Return p ->
  exists final i,
    p = {| distributions := [ {| token_name := name; recipients := final |} ] |}
    /\ forall j r, j <> i -> final !! j = Some r -> fpos (amount r).
Proof.
  intros Hgen.
  destruct (first_pass miners total_amount) as [st| |] eqn:Hrun;
    try (unfold generate_distribution in Hgen; by rewrite Hrun in Hgen).
  destruct (generate_distribution_addresses miners total_amount name st Hrun)
    as (final & Hgen' & _ & i & Hpos).
  rewrite Hgen' in Hgen. injection Hgen as <-.
  by exists final, i.
Qed.

(** A total of 1 over the weights 5, 5 and -9: the shares 5 and 5 are kept,
    the discrepancy -9 goes to the first, and -4 and 5 are returned. *)
Lemma only_the_corrected_amount_can_be_non_positive_mixed_signs :
  generate_distribution mixed_signs 1 "ergo" =
    Return {| distributions :=
      [ {| token_name := "ergo";
           recipients := [ {| address := "9minerA"; amount := -4 |};
                           {| address := "9minerB"; amount := 5 |} ] |} ] |}
  /\ exists final i,
    {| distributions :=
      [ {| token_name := "ergo";
           recipients := [ {| address := "9minerA"; amount := -4 |};
                           {| address := "9minerB"; amount := 5 |} ] |} ] |}
    = {| distributions := [ {| token_name := "ergo"; recipients := final |} ] |}
    /\ forall j r, j <> i -> final !! j = Some r -> fpos (amount r).
Proof.
  split; [vm_compute; reflexivity|].
  apply (only_the_corrected_amount_can_be_non_positive mixed_signs 1 "ergo").
  vm_compute. reflexivity.
Defined.

End AllocationMore.

(** * Further properties of the block collector *)

Section CollectorMore.
Import BlockHeightCollector Samples.

Local Ltac io_steps :=
  unfold mbind, io_bind, mret, io_ret, lift, try_except, get_items in *.

(** The calls of a scan none of whose calls fails: one per page, at the
    offsets [off], [off + limit], ... up to the first page that is not
    full. *)
Lemma scan_pages_trace api fuel page_limit min_block off acc log :
  (0 < page_limit)%nat ->
  0 <= min_block ->
  (forall i, (length log <= i)%nat -> fails api i = false) ->
  (length (history api) - off < fuel)%nat ->
  snd (scan_pages api fuel page_limit min_block off acc log) =
    log ++ map (fun k => {| offset := off + k * page_limit;
                            limit := page_limit; concise := true |})
               (seq 0 (S ((length (history api) - off) / page_limit))).
Proof.
  intros Hlimit Hmb. revert off acc log.
  induction fuel as [|fuel IH]; intros off acc log Hok Hfuel; [lia|]. simpl.
  io_steps.
  rewrite (Hok (length log)) by lia. simpl.
  assert (Hlen : length (take page_limit (drop off (history api)))
                 = (page_limit `min` (length (history api) - off))%nat).
  { by rewrite length_take, length_drop. }
  destruct (take page_limit (drop off (history api))) as [|tx items] eqn:Hpage.
  - simpl in *.
    assert (Hm : (length (history api) - off = 0)%nat) by lia.
    rewrite Hm, Nat.Div0.div_0_l. simpl.
    by rewrite Nat.add_0_r.
  - rewrite collect_page_spec by done. simpl.
    destruct (_ <? _)%nat eqn:Hshort; simpl.
    + apply Nat.ltb_lt in Hshort. simpl in Hlen.
      rewrite Nat.div_small by lia. simpl.
      by rewrite Nat.add_0_r.
    + apply Nat.ltb_ge in Hshort. simpl in Hlen.
      rewrite IH.
      * rewrite <- app_assoc. f_equal.
        replace (length (history api) - off)%nat
          with ((length (history api) - (off + page_limit))
                + 1 * page_limit)%nat by lia.
        rewrite Nat.div_add by lia.
        rewrite Nat.add_1_r.
        set (q := ((length (history api) - (off + page_limit)) / page_limit)%nat).
        change (seq 0 (S (S q))) with (0%nat :: seq 1 (S q)).
        rewrite <- seq_shift. cbn [map app Nat.mul]. rewrite map_map.
        f_equal.
        { by rewrite Nat.add_0_r. }
        apply map_ext. intros k. f_equal. lia.
      * intros i Hi. apply Hok. rewrite length_app in Hi. lia.
      * lia.
Qed.

(** A failing call is the last call of the scan. *)
Lemma scan_pages_stops_at_failure api fuel page_limit min_block off acc log i :
  (length log <= i
   < length (snd (scan_pages api fuel page_limit min_block off acc log)))%nat ->
  fails api i = true ->
  length (snd (scan_pages api fuel page_limit min_block off acc log)) = S i.
Proof.
  revert off acc log.
  induction fuel as [|fuel IH]; intros off acc log Hi Hfail; simpl in *; [lia|].
  io_steps.
  destruct (fails api (length log)) eqn:Hhere; simpl in *.
  { rewrite length_app in *. simpl in *.
    destruct (decide (i = length log)) as [->|Hne]; lia. }
  assert (Hne : i <> length log) by (intros ->; congruence).
  destruct (take page_limit (drop off (history api))) as [|tx items] eqn:Hpage.
  { simpl in Hi. rewrite length_app in Hi. simpl in Hi. lia. }
  destruct (for_each _ (tx :: items) acc) as [acc'| |]; simpl in *;
    try (rewrite length_app in Hi; simpl in Hi; lia).
  destruct (_ <? _)%nat; simpl in *;
    try (rewrite length_app in Hi; simpl in Hi; lia).
  apply IH; [|done].
  rewrite length_app. simpl. lia.
Qed.

(** The loop of the reference query is a search for the first outgoing
    record. *)
Lemma first_outgoing_find wallet items :
  first_outgoing wallet items =
    match List.find (is_outgoing wallet) items with
    | Some tx =>
        match inclusionHeight tx with
        | Some h => Return h
        | None => Raise KeyError
        end
    | None => Return 0
    end.
Proof.
  induction items as [|tx items IH]; simpl; [done|].
  by destruct (is_outgoing wallet tx).
Qed.

(** The log of the whole query is the log of its scan. *)
Lemma collect_blocks_with_log wallet api latest_limit scan_limit reference log :
  reference <> 0 ->
  snd (collect_blocks_with wallet api latest_limit scan_limit reference log) =
  snd (scan_pages api (scan_fuel api) scan_limit reference 0 ∅
         (log ++ [{| offset := 0; limit := latest_limit; concise := false |}])).
Proof.
  intros Href. rewrite collect_blocks_with_unfold by done.
  by destruct (scan_pages _ _ _ _ _ _ _) as [[s|e|] log'].
Qed.

(** X5: when the calls of the scan succeed, no block is missed and none is
    made up: a height is in the returned list exactly when it is above
    1449260 and is the [inclusionHeight] of some record of the feed,
    whatever the length of the feed. *)
Theorem no_block_above_reference_is_missed (wallet : string) (api : Api) :
  (forall i, (1 <= i)%nat -> fails api i = false) ->
  exists blocks,
    fst (get_blocks_since_last_outgoing wallet api []) = Return blocks
    /\ forall x, x ∈ blocks <->
         1449260 < x
         /\ exists tx, tx ∈ history api /\ inclusionHeight tx = Some x.
Proof.
  intros Hok. eexists. split.
  - apply collect_blocks_with_spec; [lia|lia|done].
  - intros x. by rewrite elem_of_py_sorted, elem_of_heights_above.
Qed.

Lemma no_block_above_reference_is_missed_feed54 :
  exists blocks,
    fst (get_blocks_since_last_outgoing pool_wallet (reliable feed54) [])
      = Return blocks
    /\ forall x, x ∈ blocks <->
         1449260 < x
         /\ exists tx, tx ∈ feed54 /\ inclusionHeight tx = Some x.
Proof.
  apply (no_block_above_reference_is_missed pool_wallet (reliable feed54)).
  intros i _. reflexivity.
Defined.

(** X6: when the calls of the scan succeed, a run over a feed of [n]
    records makes the reference call and then [n / 100 + 1] scan calls, at
    the offsets 0, 100, 200, ...: every page is fetched, and a feed whose
    length is a multiple of 100 costs one more call, which returns the
    empty page. *)
Theorem calls_of_a_run (wallet : string) (api : Api) :
  (forall i, (1 <= i)%nat -> fails api i = false) ->
  snd (get_blocks_since_last_outgoing wallet api []) =
    {| offset := 0; limit := 50; concise := false |}
    :: map (fun k => {| offset := k * 100; limit := 100; concise := true |})
         (seq 0 (S (length (history api) / 100))).
Proof.
  intros Hok. unfold get_blocks_since_last_outgoing.
  rewrite collect_blocks_with_log by done.
  rewrite scan_pages_trace.
  - by rewrite Nat.sub_0_r.
  - lia.
  - lia.
  - intros i Hi. apply Hok. simpl in Hi. lia.
  - unfold scan_fuel. lia.
Qed.

(** 200 records: pages at 0 and 100 are full, the call at 200 finds
    nothing. *)
Lemma calls_of_a_run_200 :
  snd (get_blocks_since_last_outgoing pool_wallet
         (reliable (replicate 200 (incoming 1500000))) []) =
    [ {| offset := 0; limit := 50; concise := false |};
      {| offset := 0; limit := 100; concise := true |};
      {| offset := 100; limit := 100; concise := true |};
      {| offset := 200; limit := 100; concise := true |} ].
Proof.
  apply (calls_of_a_run pool_wallet (reliable (replicate 200 (incoming 1500000)))).
  intros i _. reflexivity.
Defined.

(** X7: the returned list depends on which records the feed holds, not on
    their order or on how often each occurs: two feeds with the same
    records give the same list. *)
Theorem block_set_ignores_feed_order
    (wallet1 wallet2 : string) (api1 api2 : Api) :
  (forall tx, tx ∈ history api1 <-> tx ∈ history api2) ->
  (forall i, (1 <= i)%nat -> fails api1 i = false) ->
  (forall i, (1 <= i)%nat -> fails api2 i = false) ->
  fst (get_blocks_since_last_outgoing wallet1 api1 []) =
  fst (get_blocks_since_last_outgoing wallet2 api2 []).
Proof.
  intros Hsame Hok1 Hok2. unfold get_blocks_since_last_outgoing.
  rewrite !collect_blocks_with_spec by (done || lia).
  do 2 f_equal. apply set_eq. intros x.
  rewrite !elem_of_heights_above. by setoid_rewrite Hsame.
Qed.

Lemma block_set_ignores_feed_order_reversed :
  fst (get_blocks_since_last_outgoing pool_wallet (reliable feed_mixed) []) =
  fst (get_blocks_since_last_outgoing pool_wallet
         (reliable (reverse feed_mixed ++ feed_mixed)) []).
Proof.
  apply (block_set_ignores_feed_order pool_wallet pool_wallet
           (reliable feed_mixed) (reliable (reverse feed_mixed ++ feed_mixed))).
  - intros tx. unfold reliable. cbn [history].
    rewrite elem_of_app, elem_of_reverse. tauto.
  - intros i _. reflexivity.
  - intros i _. reflexivity.
Defined.

(** X8: [get_latest_outgoing_block] makes one call (offset 0, limit 50) and
    never raises.  It answers the height of the first record of that page
    that has the wallet among its inputs; it answers 0 when the call fails,
    when the page has no such record, and when that record has no
    [inclusionHeight] (later records are not looked at then). *)
Theorem latest_outgoing_is_first_match
    (wallet : string) (api : Api) (log : list Request) :
  get_latest_outgoing_block wallet api log =
    (Return
       (if fails api (length log) then 0
        else match List.find (is_outgoing wallet) (take 50 (history api)) with
             | Some tx => default 0 (inclusionHeight tx)
             | None => 0
             end),
     log ++ [{| offset := 0; limit := 50; concise := false |}]).
Proof.
  unfold get_latest_outgoing_block, get_latest_outgoing_block_with.
  io_steps.
  destruct (fails api (length log)); simpl; [done|].
  rewrite drop_0, first_outgoing_find.
  destruct (List.find _ _) as [tx|]; [|done].
  by destruct (inclusionHeight tx).
Qed.

(** X9: the scan makes no call after a failing one: when call [i] of a run
    (not the reference call) fails, the run has made [i + 1] calls. *)
Theorem no_call_after_a_failed_one (wallet : string) (api : Api) (i : nat) :
  (1 <= i)%nat ->
  (i < length (snd (get_blocks_since_last_outgoing wallet api [])))%nat ->
  fails api i = true ->
  length (snd (get_blocks_since_last_outgoing wallet api [])) = S i.
Proof.
  unfold get_blocks_since_last_outgoing.
  rewrite collect_blocks_with_log by done.
  intros Hi Hlt Hfail.
  apply scan_pages_stops_at_failure; [|done].
  split; [simpl; lia|exact Hlt].
Qed.

Lemma no_call_after_a_failed_one_second_page :
  let api := {| history := replicate 250 (incoming 1500000);
                fails := fun n => Nat.eqb n 2 |} in
  length (snd (get_blocks_since_last_outgoing pool_wallet api [])) = 3%nat.
Proof.
  intros api.
  apply (no_call_after_a_failed_one pool_wallet api 2).
  - lia.
  - vm_compute. lia.
  - reflexivity.
Defined.

End CollectorMore.

(** * Properties of the participation request *)

Section RequestFacts.
Import MinerRewards.

(** A piece free of [c], followed by nothing or by [c] and more, can be
    read off in one way only. *)
Lemma piece_unique c s1 s2 r1 r2 :
  contains c s1 = false -> contains c s2 = false ->
  (r1 = EmptyString \/ exists r, r1 = String c r) ->
  (r2 = EmptyString \/ exists r, r2 = String c r) ->
  s1 +:+ r1 = s2 +:+ r2 -> s1 = s2 /\ r1 = r2.
Proof.
  revert s2.
  induction s1 as [|a s1 IH]; intros [|b s2] Hs1 Hs2 Hr1 Hr2 Heq; simpl in *.
  - done.
  - destruct Hr1 as [->|[r ->]]; [done|].
    injection Heq as <- _. by rewrite Ascii.eqb_refl in Hs2.
  - destruct Hr2 as [->|[r ->]]; [done|].
    injection Heq as -> _. by rewrite Ascii.eqb_refl in Hs1.
  - injection Heq as -> Heq.
    apply orb_false_iff in Hs1 as [_ Hs1], Hs2 as [_ Hs2].
    destruct (IH s2 Hs1 Hs2 Hr1 Hr2 Heq) as [-> ->]. done.
Qed.

Lemma digits_free_of c u :
  (forall d, In d ["0"; "1"; "2"; "3"; "4"; "5"; "6"; "7"; "8"; "9"]%char ->
             Ascii.eqb d c = false) ->
  contains c (NilEmpty.string_of_uint u) = false.
Proof.
  intros Hc. induction u; cbn [NilEmpty.string_of_uint contains]; [done|..];
    rewrite IHu, orb_false_r; apply Hc; simpl; tauto.
Qed.

(** [str(n)] is made of digits and a minus sign: it holds no comma and no
    ampersand, it is not empty, and it determines [n]. *)
Lemma py_str_free_of c n :
  In c [","; "&"]%char -> contains c (py_str n) = false.
Proof.
  intros Hc.
  assert (Hd : forall u, contains c (NilZero.string_of_uint u) = false).
  { intros u.
    assert (contains c (NilEmpty.string_of_uint u) = false) as Hu.
    { apply digits_free_of. intros d Hd. simpl in Hc, Hd.
      destruct Hc as [<-|[<-|[]]];
        repeat (destruct Hd as [<-|Hd]; [reflexivity|]); destruct Hd. }
    destruct u; try exact Hu.
    simpl in Hc. by destruct Hc as [<-|[<-|[]]]. }
  unfold py_str. destruct (Z.to_int n) as [u|u]; simpl; [apply Hd|].
  rewrite Hd, orb_false_r.
  simpl in Hc. by destruct Hc as [<-|[<-|[]]].
Qed.

Lemma py_str_nonempty n : py_str n <> EmptyString.
Proof.
  unfold py_str. destruct (Z.to_int n) as [u|u]; simpl; [|done].
  by destruct u.
Qed.

Lemma py_str_inj a b : py_str a = py_str b -> a = b.
Proof.
  unfold py_str. intros Heq.
  apply DecimalZ.to_int_inj.
  assert (Hok : forall n, NilZero.int_of_string (NilZero.string_of_int (Z.to_int n))
                          = Some (Z.to_int n)).
  { intros n. apply NilZero.isi; destruct n; simpl; try done;
      intros [= H]; by apply DecimalPos.Unsigned.to_uint_nonnil in H. }
  pose proof (Hok a) as Ha. rewrite Heq, Hok in Ha. by injection Ha.
Qed.

(** The joined heights, as the first height and what follows it. *)
Lemma blocks_param_cons n l :
  blocks_param (n :: l) =
    py_str n +:+ match l with
                 | [] => EmptyString
                 | _ :: _ => String "," (blocks_param l)
                 end.
Proof.
  unfold blocks_param. simpl. destruct l; simpl; [|done].
  generalize (py_str n) as s. intros s.
  induction s as [|a s IHs]; [done|].
  change (String a s = String a (s +:+ "")). by rewrite <- IHs.
Qed.

Lemma blocks_param_inj l1 l2 :
  blocks_param l1 = blocks_param l2 -> l1 = l2.
Proof.
  revert l2.
  induction l1 as [|a l1 IH]; intros [|b l2] Heq.
  - done.
  - exfalso. rewrite blocks_param_cons in Heq.
    pose proof (py_str_nonempty b). by destruct (py_str b).
  - exfalso. rewrite blocks_param_cons in Heq.
    pose proof (py_str_nonempty a). by destruct (py_str a).
  - rewrite !blocks_param_cons in Heq.
    apply (piece_unique ",") in Heq as [Hab Htail].
    + apply py_str_inj in Hab as ->.
      destruct l1, l2; try done.
      injection Htail as Htail. f_equal. by apply IH.
    + apply py_str_free_of. simpl. tauto.
    + apply py_str_free_of. simpl. tauto.
    + destruct l1; eauto.
    + destruct l2; eauto.
Qed.

Lemma blocks_param_free_of_ampersand l : contains "&" (blocks_param l) = false.
Proof.
  induction l as [|n l IH]; [done|].
  rewrite blocks_param_cons.
  assert (Happ : forall s t, contains "&" (s +:+ t)
                             = contains "&" s || contains "&" t).
  { intros s t. induction s as [|a s IHs]; [done|].
    change (contains "&" (String a (s +:+ t))
            = contains "&" (String a s) || contains "&" t).
    cbn [contains]. by rewrite IHs, orb_assoc. }
  rewrite Happ, py_str_free_of by (simpl; tauto).
  destruct l; [done|]. simpl. exact IH.
Qed.

Lemma append_inv_head (p s t : string) : p +:+ s = p +:+ t -> s = t.
Proof.
  induction p as [|a p IH]; [done|].
  change (String a (p +:+ s) = String a (p +:+ t) -> s = t).
  intros [= H]. auto.
Qed.

(** X10: the URL of a participation request determines the block heights
    and the number of days it was built from: different block lists never
    give the same request. *)
Theorem request_url_determines_the_blocks
    (blocks1 blocks2 : list Z) (days1 days2 : Z) :
  request_url blocks1 days1 = request_url blocks2 days2 ->
  blocks1 = blocks2 /\ days1 = days2.
Proof.
  unfold request_url. intros Heq.
  apply append_inv_head in Heq. apply append_inv_head in Heq.
  apply (piece_unique "&") in Heq as [Hblocks Hdays].
  - split; [by apply blocks_param_inj|].
    apply append_inv_head in Hdays. by apply py_str_inj.
  - apply blocks_param_free_of_ampersand.
  - apply blocks_param_free_of_ampersand.
  - right. by eexists.
  - right. by eexists.
Qed.

Lemma request_url_determines_the_blocks_sample :
  request_url [1509846; 1509996; 1510299] 30 =
    "https://api.ergominers.com/sigscore/miners/average-participation?blocks=1509846,1509996,1510299&days=30"
  /\ ([1509846; 1509996; 1510299] = [1509846; 1509996; 1510299] /\ 30 = 30).
Proof.
  split; [vm_compute; reflexivity|].
  apply (request_url_determines_the_blocks
           [1509846; 1509996; 1510299] [1509846; 1509996; 1510299] 30 30).
  reflexivity.
Defined.

End RequestFacts.

(** * Properties of [main] *)

Section MainFacts.
Import PyFloat Allocation BlockHeightCollector MinerRewards Demurrage.
Import Samples MoreSamples.
Variable builtin_api_key : string.

(** The block query always returns a list. *)
Lemma get_blocks_since_last_outgoing_total wallet api log :
  exists blocks log',
    get_blocks_since_last_outgoing wallet api log = (Return blocks, log').
Proof.
  unfold get_blocks_since_last_outgoing.
  rewrite collect_blocks_with_unfold by done.
  pose proof (scan_pages_fuel api (scan_fuel api) 100 1449260 0 ∅
                (log ++ [{| offset := 0; limit := 50; concise := false |}]))
    as Hfuel.
  destruct (scan_pages _ _ _ _ _ _ _) as [[s|e|] log']; simpl in *.
  - by eexists _, _.
  - by eexists _, _.
  - exfalso. apply Hfuel; [|done]. unfold scan_fuel. lia.
Qed.

(** A failing call of the scan makes the block query return the empty
    list. *)
Lemma failed_scan_returns_empty wallet api i :
  (1 <= i)%nat ->
  (i < length (snd (get_blocks_since_last_outgoing wallet api [])))%nat ->
  fails api i = true ->
  fst (get_blocks_since_last_outgoing wallet api []) = Return [].
Proof.
  unfold get_blocks_since_last_outgoing.
  rewrite collect_blocks_with_log by done.
  rewrite collect_blocks_with_unfold by done.
  intros Hi Hlt Hfail.
  pose proof (scan_pages_failure api (scan_fuel api) 100 1449260 0 ∅
                ([] ++ [{| offset := 0; limit := 50; concise := false |}]) i)
    as Hscan.
  destruct (scan_pages _ _ _ _ _ _ _) as [[s|e|] log']; simpl in *;
    try done; (discriminate Hscan; [lia|done]).
Qed.

(** [generate_distribution] has no loop to run out of fuel, and with a zero
    total over at least one miner it raises. *)
Lemma generate_distribution_zero_total miner miners total_amount name :
  (py_sum (map avg_participation_percentage (miner :: miners)) =? 0)%float
    = true ->
  generate_distribution (miner :: miners) total_amount name
    = Raise ZeroDivisionError.
Proof.
  intros Hzero. unfold generate_distribution, first_pass.
  rewrite for_each_cons. unfold pass_step, py_truediv. by rewrite Hzero.
Qed.

Lemma generate_distribution_bounded miners total_amount name :
  generate_distribution miners total_amount name <> OutOfFuel.
Proof.
  destruct (py_sum (map avg_participation_percentage miners) =? 0)%float
    eqn:Hzero.
  - destruct miners as [|m miners]; [done|].
    by rewrite generate_distribution_zero_total.
  - destruct (recipients_nonzero_total miners total_amount name Hzero)
      as [final ->]. done.
Qed.

Lemma process_bounded w blocks : process builtin_api_key w blocks <> OutOfFuel.
Proof.
  unfold process, fetch_miners_data.
  destruct (service w _ _) as [miners|e]; simpl; [|done].
  pose proof (generate_distribution_bounded miners 5.5 "ergo") as Hgen.
  destruct (generate_distribution miners 5.5 "ergo") as [p| |]; simpl;
    [|done|done].
  by destruct (disk w _ p).
Qed.

(** What [process] returns is a saved file: the file named after the
    number of blocks, holding what [generate_distribution] returned for the
    miners the service answered. *)
Lemma process_returns w blocks e :
  process builtin_api_key w blocks = Return e ->
  exists miners p,
    service w (request_url blocks 30) (api_key (getenv w) builtin_api_key)
      = Answer miners
    /\ generate_distribution miners 5.5 "ergo" = Return p
    /\ e = Saved (output_file_name blocks) p.
Proof.
  unfold process, fetch_miners_data.
  destruct (service w _ _) as [miners|e']; simpl; [|done].
  destruct (generate_distribution miners 5.5 "ergo") as [p| |] eqn:Hgen;
    simpl; [|done|done].
  destruct (disk w _ p) as [[]|e']; simpl; [|done].
  intros [= <-]. by exists miners, p.
Qed.

(** X11: [main] never lets an exception out and always ends: with "no
    blocks found", with a saved file, or in its [except] branch.  It asks
    the participation service at most once, and not at all exactly when it
    ends with "no blocks found". *)
Theorem main_ends_in_one_of_three_ways (w : World) :
  exists e,
    ended (main builtin_api_key w) = Return e
    /\ (length (service_calls (main builtin_api_key w)) <= 1)%nat
    /\ (service_calls (main builtin_api_key w) = [] <-> e = NoBlocksFound).
Proof.
  unfold main.
  destruct (get_blocks_since_last_outgoing_total (wallet w) (explorer w) [])
    as (blocks & log' & ->).
  destruct blocks as [|b blocks]; simpl.
  - exists NoBlocksFound. split; [done|]. split; [lia|done].
  - pose proof (process_bounded w (b :: blocks)) as Hfuel.
    destruct (process builtin_api_key w (b :: blocks)) as [e|e|] eqn:Hproc;
      [..|done].
    + exists e. split; [done|]. split; [lia|]. split; [done|].
      intros ->.
      by destruct (process_returns w _ _ Hproc) as (? & ? & _ & _ & ?).
    + exists (ProcessingError e). split; [done|]. split; [lia|]. split; done.
Qed.

(** X12: when a call of the scan fails, [main] ends with "no blocks
    found", exactly as for a wallet without new blocks: the participation
    service is not asked and no file is written. *)
Theorem main_after_a_failed_scan (w : World) (i : nat) :
  (1 <= i)%nat ->
  (i < length (explorer_calls (main builtin_api_key w)))%nat ->
  fails (explorer w) i = true ->
  ended (main builtin_api_key w) = Return NoBlocksFound
  /\ service_calls (main builtin_api_key w) = [].
Proof.
  intros Hi Hlt Hfail.
  assert (Hcalls : explorer_calls (main builtin_api_key w)
                   = snd (get_blocks_since_last_outgoing (wallet w) (explorer w) [])).
  { unfold main.
    destruct (get_blocks_since_last_outgoing _ _ _) as [[[|b blocks]|e|] log'];
      done. }
  rewrite Hcalls in Hlt.
  pose proof (failed_scan_returns_empty (wallet w) (explorer w) i Hi Hlt Hfail)
    as Hempty.
  unfold main.
  destruct (get_blocks_since_last_outgoing _ _ _) as [o log'].
  simpl in Hempty. by rewrite Hempty.
Qed.

(** X13: the whole run.  When the calls of the scan succeed and the feed
    holds blocks above 1449260, [main] asks the participation service once,
    for those blocks in ascending order and 30 days; if the service answers
    with weights that do not add up to zero and the file can be written,
    [main] saves, under [distribution_<number of blocks>_blocks.json], the
    split of 5.5 "ergo" over the miners of positive rounded share. *)
Theorem main_saves_the_distribution (w : World) (miners : list Miner) :
  let blocks := py_sorted (heights_above 1449260 (history (explorer w))) in
  let total_percentage := py_sum (map avg_participation_percentage miners) in
  (forall i, (1 <= i)%nat -> fails (explorer w) i = false) ->
  blocks <> [] ->
  service w (request_url blocks 30) (api_key (getenv w) builtin_api_key)
    = Answer miners ->
  (total_percentage =? 0)%float = false ->
  (forall p, disk w (output_file_name blocks) p = Answer tt) ->
  exists final,
    ended (main builtin_api_key w) =
      Return (Saved (output_file_name blocks)
                {| distributions :=
                     [ {| token_name := "ergo"; recipients := final |} ] |})
    /\ map address final =
         map miner_address (List.filter (paid 5.5 total_percentage) miners)
    /\ service_calls (main builtin_api_key w) = [request_url blocks 30].
Proof.
  intros blocks W Hok Hblocks Hservice Hnz Hdisk.
  destruct (recipients_are_paid miners 5.5 "ergo" Hnz)
    as (final & Hgen & Haddr).
  exists final.
  pose proof (collect_blocks_with_spec (wallet w) (explorer w) 50 100 1449260
                ltac:(lia) ltac:(lia) Hok) as Hscan.
  fold blocks in Hscan.
  unfold main. change (collect_blocks_with (wallet w) (explorer w) 50 100 1449260 [])
    with (get_blocks_since_last_outgoing (wallet w) (explorer w) []) in Hscan.
  destruct (get_blocks_since_last_outgoing _ _ _) as [o log'].
  simpl in Hscan. subst o.
  destruct blocks as [|b bs] eqn:Hb; [done|]. rewrite <- Hb in *.
  cbn [ended service_calls].
  unfold process, fetch_miners_data.
  rewrite Hservice. cbn [of_reply mbind outcome_bind].
  rewrite Hgen. cbn [mbind outcome_bind]. rewrite Hdisk.
  by cbn [of_reply mbind outcome_bind].
Qed.

(** X14: when the service answers with miners whose weights add up to
    zero, the division by zero ends up in the [except] branch of [main]:
    the run ends with a processing error and saves nothing. *)
Theorem main_reports_zero_weights
    (w : World) (miner : Miner) (miners : list Miner) :
  let blocks := py_sorted (heights_above 1449260 (history (explorer w))) in
  (forall i, (1 <= i)%nat -> fails (explorer w) i = false) ->
  blocks <> [] ->
  service w (request_url blocks 30) (api_key (getenv w) builtin_api_key)
    = Answer (miner :: miners) ->
  (py_sum (map avg_participation_percentage (miner :: miners)) =? 0)%float
    = true ->
  ended (main builtin_api_key w) = Return (ProcessingError ZeroDivisionError).
Proof.
  intros blocks Hok Hblocks Hservice Hzero.
  pose proof (collect_blocks_with_spec (wallet w) (explorer w) 50 100 1449260
                ltac:(lia) ltac:(lia) Hok) as Hscan.
  fold blocks in Hscan.
  unfold main. change (collect_blocks_with (wallet w) (explorer w) 50 100 1449260 [])
    with (get_blocks_since_last_outgoing (wallet w) (explorer w) []) in Hscan.
  destruct (get_blocks_since_last_outgoing _ _ _) as [o log'].
  simpl in Hscan. subst o.
  destruct blocks as [|b bs] eqn:Hb; [done|]. rewrite <- Hb in *.
  cbn [ended].
  unfold process, fetch_miners_data.
  rewrite Hservice. cbn [of_reply mbind outcome_bind].
  by rewrite generate_distribution_zero_total.
Qed.

End MainFacts.

Section MainRuns.
Import PyFloat Allocation BlockHeightCollector MinerRewards Demurrage.
Import Samples MoreSamples.

(** The first page of the scan fails: nothing is asked, nothing saved. *)
Lemma main_after_a_failed_scan_flaky :
  ended (main "k3y" (world_of flaky sixty_forty)) = Return NoBlocksFound
  /\ service_calls (main "k3y" (world_of flaky sixty_forty)) = [].
Proof.
  apply (main_after_a_failed_scan "k3y" (world_of flaky sixty_forty) 1).
  - lia.
  - vm_compute. lia.
  - reflexivity.
Defined.

(** Three blocks above 1449260 and the weights 60 and 40: the file
    [distribution_3_blocks.json] gets 3.3 and 2.2. *)
Lemma main_saves_the_distribution_feed_mixed :
  ended (main "k3y" (world_of (reliable feed_mixed) sixty_forty)) =
    Return (Saved "distribution_3_blocks.json"
      {| distributions :=
        [ {| token_name := "ergo";
             recipients :=
               [ {| address := "9minerA"; amount := 0x1.a666666666666p+1 |};
                 {| address := "9minerB"; amount := 0x1.199999999999ap+1 |} ] |} ] |})
  /\ exists final,
    ended (main "k3y" (world_of (reliable feed_mixed) sixty_forty)) =
      Return (Saved
                (output_file_name (py_sorted (heights_above 1449260 feed_mixed)))
                {| distributions :=
                     [ {| token_name := "ergo"; recipients := final |} ] |})
    /\ map address final =
         map miner_address
           (List.filter
              (paid 5.5 (py_sum (map avg_participation_percentage sixty_forty)))
              sixty_forty)
    /\ service_calls (main "k3y" (world_of (reliable feed_mixed) sixty_forty)) =
         [request_url (py_sorted (heights_above 1449260 feed_mixed)) 30].
Proof.
  split; [vm_compute; reflexivity|].
  apply (main_saves_the_distribution "k3y"
           (world_of (reliable feed_mixed) sixty_forty) sixty_forty).
  - intros i _. reflexivity.
  - vm_compute. discriminate.
  - vm_compute. reflexivity.
  - vm_compute. reflexivity.
  - intros p. reflexivity.
Defined.

Lemma main_reports_zero_weights_feed_mixed :
  ended (main "k3y" (world_of (reliable feed_mixed) zero_weight)) =
    Return (ProcessingError ZeroDivisionError).
Proof.
  apply (main_reports_zero_weights "k3y"
           (world_of (reliable feed_mixed) zero_weight)
           (miner "9minerA" 0) []).
  - intros i _. reflexivity.
  - vm_compute. discriminate.
  - vm_compute. reflexivity.
  - vm_compute. reflexivity.
Defined.

End MainRuns.
